(** * BuyTicketModal: the ticket-purchase dialog of the NFT-ticketing frontend

    A shallow embedding of
    [projects/nft_bookings-frontend/src/components/BuyTicketModal.tsx]:
    the four state cells, the memoised values of a render
    ([algodClient], [appFactory], [getAppClient]) with the dependency
    arrays that guard them, the price-fetch effect, the submit handler
    [handleBuyTicket] and the [disabled] attribute of the submit button,
    together with the JavaScript primitives they rely on: truthiness,
    binary64 arithmetic, [Number] on strings, exceptions.

    The two asynchronous functions are computations in a small monad that
    records, in order, every call they make to the outside (setters,
    notifications, SDK calls); how an SDK call ends is decided by a
    [World]. The properties proved are those of sections 4, 7 and 8 of the
    specification. *)

From Stdlib Require Import ZArith Bool List String Ascii Lia.
From Stdlib Require Import Floats.SpecFloat.
Import ListNotations.

Local Open Scope string_scope.

(** ** JavaScript primitives *)

Module JS.

(** A JavaScript number is an IEEE 754 binary64 value. *)
Definition number : Type := spec_float.

Definition prec : Z := 53.
Definition emax : Z := 1024.

Definition NaN : number := S754_nan.

(** The number denoted by an integer literal of the source. *)
Definition of_Z (z : Z) : number := binary_normalize prec emax z 0 false.

(** [x / y] and [x * y] on numbers. *)
Definition div (x y : number) : number := SFdiv prec emax x y.
Definition mul (x y : number) : number := SFmul prec emax x y.

(** [x <= y] and [x < y]; both are false as soon as one side is NaN. *)
Definition leb (x y : number) : bool := SFleb x y.
Definition ltb (x y : number) : bool := SFltb x y.

(** The literal [1_000_000]. *)
Definition million : number := of_Z 1000000.

(** ToBoolean on a number: [0], [-0] and [NaN] are falsy. *)
Definition truthy_number (x : number) : bool :=
  match x with
  | S754_zero _ | S754_nan => false
  | _ => true
  end.

(** ToBoolean on a string: only the empty string is falsy. *)
Definition truthy_string (s : string) : bool :=
  match s with
  | EmptyString => false
  | String _ _ => true
  end.

(** ToBoolean on [T | null] (or [T | undefined]). *)
Definition truthy_opt {A : Type} (truthy : A -> bool) (v : option A) : bool :=
  match v with
  | None => false
  | Some a => truthy a
  end.

(** A thrown value: an instance of [Error] with its [message], or any
    other value (a string, a plain object, ...) with the [message]
    property it may carry. *)
Inductive thrown : Type :=
| ErrorInstance (message : string)
| NonError (message : option string).

(** The [message] of whatever was thrown, when it has one. *)
Definition message_of (e : thrown) : option string :=
  match e with
  | ErrorInstance m => Some m
  | NonError m => m
  end.

(** [e instanceof Error ? e.message : fallback]. *)
Definition error_message_or (fallback : string) (e : thrown) : string :=
  match e with
  | ErrorInstance m => m
  | NonError _ => fallback
  end.

(** *** [Number(s)]: StringToNumber of ECMA-262

    A string is the sequence of its code units; the characters modelled
    are the code units U+0000 to U+00FF, one [ascii] each. *)

Local Open Scope Z_scope.

Definition code (c : ascii) : Z := Z.of_N (N_of_ascii c).

(** StrWhiteSpaceChar: TAB, LF, VT, FF, CR, SP and NBSP. *)
Definition is_StrWhiteSpaceChar (c : ascii) : bool :=
  let n := code c in
  (n =? 9) || (n =? 10) || (n =? 11) || (n =? 12) || (n =? 13)
  || (n =? 32) || (n =? 160).

(** The value of [c] as a digit of the given base, if it is one. *)
Definition digit_of (base : Z) (c : ascii) : option Z :=
  let n := code c in
  let v :=
    if (48 <=? n) && (n <=? 57) then Some (n - 48)
    else if (97 <=? n) && (n <=? 102) then Some (n - 87)
    else if (65 <=? n) && (n <=? 70) then Some (n - 55)
    else None in
  match v with
  | Some d => if d <? base then Some d else None
  | None => None
  end.

(** The longest prefix of digits, and what follows it. *)
Fixpoint span_digits (base : Z) (s : list ascii) : list Z * list ascii :=
  match s with
  | [] => ([], [])
  | c :: r =>
      match digit_of base c with
      | Some d => let (ds, r') := span_digits base r in (d :: ds, r')
      | None => ([], s)
      end
  end.

(** The mathematical value of a digit sequence. *)
Definition MV (base : Z) (ds : list Z) : Z :=
  fold_left (fun acc d => acc * base + d) ds 0.

Fixpoint drop_white (s : list ascii) : list ascii :=
  match s with
  | c :: r => if is_StrWhiteSpaceChar c then drop_white r else s
  | [] => []
  end.

(** Strip StrWhiteSpace on both sides. *)
Definition trim (s : list ascii) : list ascii :=
  rev (drop_white (rev (drop_white s))).

(** The number value of [d * 10^e10] for a natural [d], negated when
    [neg]: round to nearest, ties to even; a zero keeps the sign. *)
Definition round_decimal (neg : bool) (d e10 : Z) : number :=
  match d with
  | Zpos m =>
      if 0 <=? e10
      then binary_normalize prec emax
             (if neg then - (d * 10 ^ e10) else d * 10 ^ e10) 0 neg
      else SFdiv prec emax (S754_finite neg m 0)
             (S754_finite false (Z.to_pos (10 ^ (- e10))) 0)
  | _ => S754_zero neg
  end.

(** ExponentPart, optional: [e] or [E], a sign, digits, end of input. *)
Definition parse_exponent (s : list ascii) : option Z :=
  match s with
  | [] => Some 0
  | c :: r =>
      if (code c =? 101) || (code c =? 69) then
        let '(neg, r1) :=
          match r with
          | s1 :: r' =>
              if code s1 =? 43 then (false, r')
              else if code s1 =? 45 then (true, r')
              else (false, r)
          | [] => (false, r)
          end in
        match span_digits 10 r1 with
        | ((_ :: _) as ds, []) => Some (if neg then - MV 10 ds else MV 10 ds)
        | _ => None
        end
      else None
  end.

(** StrUnsignedDecimalLiteral. *)
Definition parse_unsigned_decimal (neg : bool) (s : list ascii)
  : option number :=
  if String.eqb (string_of_list_ascii s) "Infinity"
  then Some (S754_infinity neg)
  else
    let (ip, r1) := span_digits 10 s in
    let '(fp, r2, ok) :=
      match r1 with
      | c :: r =>
          if code c =? 46
          then let (fp, r2) := span_digits 10 r in
               (fp, r2, negb (Nat.eqb (List.length ip + List.length fp)%nat 0))
          else ([], r1, negb (Nat.eqb (List.length ip) 0))
      | [] => ([], r1, negb (Nat.eqb (List.length ip) 0))
      end in
    if ok then
      match parse_exponent r2 with
      | Some e =>
          Some (round_decimal neg (MV 10 (ip ++ fp))
                  (e - Z.of_nat (List.length fp)))
      | None => None
      end
    else None.

(** NonDecimalIntegerLiteral: [0x], [0o] or [0b] and digits of that base. *)
Definition parse_non_decimal (s : list ascii) : option number :=
  match s with
  | z :: b :: r =>
      if code z =? 48 then
        let base :=
          if (code b =? 120) || (code b =? 88) then Some 16
          else if (code b =? 111) || (code b =? 79) then Some 8
          else if (code b =? 98) || (code b =? 66) then Some 2
          else None in
        match base with
        | Some k =>
            match span_digits k r with
            | ((_ :: _) as ds, []) => Some (round_decimal false (MV k ds) 0)
            | _ => None
            end
        | None => None
        end
      else None
  | _ => None
  end.

(** StrNumericLiteral, on input without surrounding white space. *)
Definition parse_numeric (s : list ascii) : option number :=
  match parse_non_decimal s with
  | Some v => Some v
  | None =>
      match s with
      | c :: r =>
          if code c =? 43 then parse_unsigned_decimal false r
          else if code c =? 45 then parse_unsigned_decimal true r
          else parse_unsigned_decimal false s
      | [] => None
      end
  end.

(** StringNumericLiteral: white space only, or a StrNumericLiteral
    surrounded by optional white space. *)
Definition StringToNumber (s : string) : option number :=
  match trim (list_ascii_of_string s) with
  | [] => Some (S754_zero false)
  | t => parse_numeric t
  end.

(** [s] is a valid numeral: it matches StringNumericLiteral. *)
Definition is_numeral (s : string) : bool :=
  match StringToNumber s with
  | Some _ => true
  | None => false
  end.

(** [Number(s)]: the value of the literal, [NaN] when [s] is none. *)
Definition Number (s : string) : number :=
  match StringToNumber s with
  | Some v => v
  | None => NaN
  end.

End JS.

(** ** The platform the component calls into *)

(** An object is known by its identity: two references are the same
    object ([Object.is]) exactly when they are the same number. *)
Abbreviation ref := nat (only parsing).

(** What the SDKs hand back and the component only passes along, and the
    constants of [../config]. *)
Class Sdk : Type := {
  SuggestedParams : Type;    (* algodClient.getTransactionParams().do() *)
  Transaction : Type;        (* an algosdk transaction object *)
  AppClient : Type;          (* appFactory.getClient(...) *)
  BookingResponse : Type;    (* what bookTicket resolves to *)
  response_text : BookingResponse -> string;   (* `${response}` *)
  AppId : Type;
  CONFIG_APP_ID : AppId;
  CONFIG_IS_DEVELOPMENT : bool
}.

(** How a call ends. *)
Inductive Outcome (A : Type) : Type :=
| Returns (a : A)
| Throws (e : JS.thrown).
Arguments Returns {A} a.
Arguments Throws {A} e.

Section Effects.

Context {sdk : Sdk}.

(** The [variant] option of notistack's [enqueueSnackbar]. *)
Inductive SnackVariant : Type :=
| v_success
| v_warning
| v_error.

(** The object given to
    [algosdk.makePaymentTxnWithSuggestedParamsFromObject]. *)
Record PaymentParams : Type := {
  sender : string;
  receiver : string;
  amount : JS.number;
  suggestedParams : SuggestedParams
}.

(** [new NftBookingsFactory(algodClient, activeAddress, transactionSigner,
    CONFIG.IS_DEVELOPMENT)]: the object and its constructor arguments. *)
Record NftBookingsFactory : Type := {
  fac_id : ref;
  fac_algodClient : ref;
  fac_address : string;
  fac_signer : ref;
  fac_isDevelopment : bool
}.

(** *** Effects

    Everything the two asynchronous functions do to the outside, in the
    order they do it: state setters, notifications, the console, the
    props callback, the global event and the SDK calls. *)
Inductive action : Type :=
| SetEventId (v : string)
| SetReceiverAddress (v : string)
| SetLoading (v : bool)
| SetTicketPrice (v : option JS.number)
| EnqueueSnackbar (message : string) (variant : SnackVariant)
| ConsoleError (label : string) (e : JS.thrown)
| CloseModal
| DispatchEvent (type : string)
| GetClient (factory : NftBookingsFactory) (appId : AppId)
| GetTicketPrice (client : AppClient)
| GetTransactionParams (algodClient : ref)
| MakePaymentTxn (p : PaymentParams)
| BookTicket (client : AppClient) (eventId : JS.number) (paymentTxn : Transaction).

(** A computation: the actions performed, then how it ended. *)
Definition M (A : Type) : Type := list action * Outcome A.

Definition ret {A} (a : A) : M A := ([], Returns a).

Definition throw {A} (e : JS.thrown) : M A := ([], Throws e).

Definition bind {A B} (m : M A) (k : A -> M B) : M B :=
  match m with
  | (t, Returns a) => let (t', o) := k a in ((t ++ t')%list, o)
  | (t, Throws e) => (t, Throws e)
  end.

(** A call that returns without throwing: a state setter,
    [enqueueSnackbar], [console.error], the [closeModal] prop,
    [window.dispatchEvent]. *)
Definition emit (a : action) : M unit := ([a], Returns tt).

(** A call into an SDK, with the outcome the outside world decides. *)
Definition call {A} (a : action) (o : Outcome A) : M A := ([a], o).

(** [try { body } catch (e) { handler }]. *)
Definition try_catch {A} (body : M A) (handler : JS.thrown -> M A) : M A :=
  match body with
  | (t, Returns a) => (t, Returns a)
  | (t, Throws e) => let (t', o) := handler e in ((t ++ t')%list, o)
  end.

(** [try { body } finally { final }]. *)
Definition try_finally {A} (body : M A) (final : M unit) : M A :=
  match body, final with
  | (t, o), (t', Returns _) => ((t ++ t')%list, o)
  | (t, _), (t', Throws e) => ((t ++ t')%list, Throws e)
  end.

Definition trace {A} (m : M A) : list action := fst m.
Definition outcome {A} (m : M A) : Outcome A := snd m.

(** The outside world during one asynchronous function: how each SDK
    call it may make ends. *)
Record World : Type := {
  getClient : NftBookingsFactory -> AppId -> Outcome AppClient;
  getTicketPrice : AppClient -> Outcome JS.number;
  getTransactionParams : ref -> Outcome SuggestedParams;
  makePaymentTxn : PaymentParams -> Outcome Transaction;
  bookTicket : AppClient -> JS.number -> Transaction -> Outcome BookingResponse
}.

End Effects.

Declare Scope js_scope.
Delimit Scope js_scope with js.
Notation "x <- m ;; k" := (bind m (fun x => k))
  (at level 61, m at next level, right associativity) : js_scope.
Notation "m ;; k" := (bind m (fun _ => k))
  (at level 61, right associativity) : js_scope.

(** ** The component *)

Section BuyTicketModal.

Context {sdk : Sdk}.
Local Open Scope js_scope.

(** The pre-filled receiver address. *)
Definition DEFAULT_RECEIVER : string :=
  "2ZTFJNDXPWDETGJQQN33HAATRHXZMBWESKO2AUFZUHERH2H3TG4XTNPL4Y".

(** The four [useState] cells. *)
Record State : Type := {
  eventId : string;
  receiverAddress : string;
  loading : bool;
  ticketPrice : option JS.number
}.

Definition initial_state : State :=
  {| eventId := "";
     receiverAddress := DEFAULT_RECEIVER;
     loading := false;
     ticketPrice := None |}.

(** [useWallet()]: the signer function (by identity) and the address. *)
Record Wallet : Type := {
  transactionSigner : option ref;
  activeAddress : option string
}.

(** [!!activeAddress] and [!!transactionSigner]; a function is truthy. *)
Definition has_address (w : Wallet) : bool :=
  JS.truthy_opt JS.truthy_string (activeAddress w).

Definition has_signer (w : Wallet) : bool :=
  JS.truthy_opt (fun _ => true) (transactionSigner w).

(** [activeAddress] where a guard has narrowed it to a string. *)
Definition address (w : Wallet) : string :=
  match activeAddress w with
  | Some a => a
  | None => ""
  end.

(** ToNumber of [ticketPrice]: [null] counts as [+0]. *)
Definition price_number (p : option JS.number) : JS.number :=
  match p with
  | Some x => x
  | None => S754_zero false
  end.

(** *** Hooks: what a render memoises

    [Object.is] on the dependencies of [useMemo], [useCallback] and
    [useEffect]. *)
Definition same_opt {A} (same : A -> A -> bool) (x y : option A) : bool :=
  match x, y with
  | Some a, Some b => same a b
  | None, None => true
  | _, _ => false
  end.

Record Memo (D V : Type) : Type := {
  memo_deps : D;
  memo_value : V
}.
Arguments memo_deps {D V} _.
Arguments memo_value {D V} _.

(** [useMemo(create, deps)]: the cell of the previous render is kept
    when every dependency is the same. *)
Definition useMemo {D V} (same : D -> D -> bool) (prev : option (Memo D V))
    (deps : D) (create : unit -> V) : Memo D V :=
  match prev with
  | Some cell =>
      if same (memo_deps cell) deps then cell
      else {| memo_deps := deps; memo_value := create tt |}
  | None => {| memo_deps := deps; memo_value := create tt |}
  end.

(** What a render reads: the state, the wallet, the object returned by
    [getAlgodConfigFromViteEnvironment()] in this render and the
    [enqueueSnackbar] function of [useSnackbar()]. *)
Record Inputs : Type := {
  in_state : State;
  in_wallet : Wallet;
  in_algodConfig : ref;
  in_enqueueSnackbar : ref
}.

(** The dependency array of the price-fetch effect. *)
Record EffectDeps : Type := {
  dep_eventId : string;
  dep_activeAddress : option string;
  dep_transactionSigner : option ref;
  dep_getAppClient : ref;
  dep_enqueueSnackbar : ref
}.

Definition same_deps (a b : EffectDeps) : bool :=
  String.eqb (dep_eventId a) (dep_eventId b)
  && same_opt String.eqb (dep_activeAddress a) (dep_activeAddress b)
  && same_opt Nat.eqb (dep_transactionSigner a) (dep_transactionSigner b)
  && Nat.eqb (dep_getAppClient a) (dep_getAppClient b)
  && Nat.eqb (dep_enqueueSnackbar a) (dep_enqueueSnackbar b).

(** The body of the [appFactory] memo; [id] is the identity of the
    object that [new] creates. *)
Definition create_appFactory (id algodClient : ref) (w : Wallet)
  : option NftBookingsFactory :=
  if negb (has_address w) || negb (has_signer w) then None
  else
    match activeAddress w, transactionSigner w with
    | Some a, Some sg =>
        Some {| fac_id := id;
                fac_algodClient := algodClient;
                fac_address := a;
                fac_signer := sg;
                fac_isDevelopment := CONFIG_IS_DEVELOPMENT |}
    | _, _ => None
    end.

Definition same_factory_deps (a b : ref * option string * option ref) : bool :=
  let '(c1, a1, s1) := a in
  let '(c2, a2, s2) := b in
  Nat.eqb c1 c2 && same_opt String.eqb a1 a2 && same_opt Nat.eqb s1 s2.

(** The hook cells of the component between two renders. [hk_next] is
    the identity the next created object gets. *)
Record Hooks : Type := {
  hk_algodClient : Memo ref ref;
  hk_appFactory :
    Memo (ref * option string * option ref) (option NftBookingsFactory);
  hk_getAppClient : Memo (option ref) (ref * option NftBookingsFactory);
  hk_effectDeps : EffectDeps;
  hk_next : ref
}.

(** One render: [algodClient], [appFactory] and [getAppClient] are
    memoised on their dependency arrays, and the effect is scheduled on
    mount and whenever one of its dependencies changed. The [algorand]
    client of lines 27-28 (memoised on the two configuration objects, and
    given the signer) is used by nothing else in the component and is left
    out, and with it the indexer configuration. *)
Definition render (prev : option Hooks) (i : Inputs) : Hooks * bool :=
  let n := match prev with Some h => hk_next h | None => 0 end in
  let w := in_wallet i in
  let algodClient :=
    useMemo Nat.eqb (option_map hk_algodClient prev)
      (in_algodConfig i) (fun _ => n) in
  let appFactory :=
    useMemo same_factory_deps (option_map hk_appFactory prev)
      (memo_value algodClient, activeAddress w, transactionSigner w)
      (fun _ => create_appFactory (S n) (memo_value algodClient) w) in
  let getAppClient :=
    useMemo (same_opt Nat.eqb) (option_map hk_getAppClient prev)
      (option_map fac_id (memo_value appFactory))
      (fun _ => (S (S n), memo_value appFactory)) in
  let deps :=
    {| dep_eventId := eventId (in_state i);
       dep_activeAddress := activeAddress w;
       dep_transactionSigner := transactionSigner w;
       dep_getAppClient := fst (memo_value getAppClient);
       dep_enqueueSnackbar := in_enqueueSnackbar i |} in
  let fires :=
    match prev with
    | Some h => negb (same_deps (hk_effectDeps h) deps)
    | None => true
    end in
  ({| hk_algodClient := algodClient;
      hk_appFactory := appFactory;
      hk_getAppClient := getAppClient;
      hk_effectDeps := deps;
      hk_next := S (S (S n)) |}, fires).

(** The renders of a mounted component. *)
Inductive rendered : Hooks -> Inputs -> Prop :=
| rendered_mount (i : Inputs) :
    rendered (fst (render None i)) i
| rendered_update (h : Hooks) (i0 i : Inputs) :
    rendered h i0 -> rendered (fst (render (Some h) i)) i.

(** What the hook cells hold after a render on inputs [i]: every cell is
    keyed on the dependencies of this render, the factory is the one the
    memo body builds from them, the callback closes over that factory, and
    every object created so far is older than [hk_next]. *)
Definition hooks_ok (h : Hooks) (i : Inputs) : Prop :=
  memo_deps (hk_algodClient h) = in_algodConfig i
  /\ memo_value (hk_algodClient h) < hk_next h
  /\ memo_deps (hk_appFactory h)
     = (memo_value (hk_algodClient h), activeAddress (in_wallet i),
        transactionSigner (in_wallet i))
  /\ (exists id,
        id < hk_next h
        /\ memo_value (hk_appFactory h)
           = create_appFactory id (memo_value (hk_algodClient h))
               (in_wallet i))
  /\ memo_deps (hk_getAppClient h)
     = option_map fac_id (memo_value (hk_appFactory h))
  /\ snd (memo_value (hk_getAppClient h)) = memo_value (hk_appFactory h)
  /\ fst (memo_value (hk_getAppClient h)) < hk_next h
  /\ hk_effectDeps h
     = {| dep_eventId := eventId (in_state i);
          dep_activeAddress := activeAddress (in_wallet i);
          dep_transactionSigner := transactionSigner (in_wallet i);
          dep_getAppClient := fst (memo_value (hk_getAppClient h));
          dep_enqueueSnackbar := in_enqueueSnackbar i |}.

(** What the functions created in a render close over. *)
Record Closure : Type := {
  cl_state : State;
  cl_wallet : Wallet;
  cl_algodClient : ref;
  cl_appFactory : option NftBookingsFactory
}.

Definition closure_of (h : Hooks) (i : Inputs) : Closure :=
  {| cl_state := in_state i;
     cl_wallet := in_wallet i;
     cl_algodClient := memo_value (hk_algodClient h);
     cl_appFactory := snd (memo_value (hk_getAppClient h)) |}.

(** *** The calls the component makes *)

Definition setEventId (v : string) : M unit := emit (SetEventId v).
Definition setReceiverAddress (v : string) : M unit :=
  emit (SetReceiverAddress v).
Definition setLoading (v : bool) : M unit := emit (SetLoading v).
Definition setTicketPrice (v : option JS.number) : M unit :=
  emit (SetTicketPrice v).
Definition enqueueSnackbar (message : string) (variant : SnackVariant)
  : M unit := emit (EnqueueSnackbar message variant).
Definition console_error (label : string) (e : JS.thrown) : M unit :=
  emit (ConsoleError label e).
Definition closeModal : M unit := emit CloseModal.
Definition dispatchEvent (type : string) : M unit :=
  emit (DispatchEvent type).

Definition getAppClient (c : Closure) (w : World) : M AppClient :=
  match cl_appFactory c with
  | None =>
      throw (JS.ErrorInstance
               "Wallet not connected or factory not initialized")
  | Some appFactory =>
      call (GetClient appFactory CONFIG_APP_ID)
           (getClient w appFactory CONFIG_APP_ID)
  end.

(** The body of the price-fetch effect. *)
Definition fetchTicketPrice (c : Closure) (w : World) : M unit :=
  if negb (JS.truthy_string (eventId (cl_state c)))
     || negb (has_address (cl_wallet c))
     || negb (has_signer (cl_wallet c))
  then setTicketPrice None
  else
    try_catch
      (appClient <- getAppClient c w ;;
       priceMicro <- call (GetTicketPrice appClient)
                          (getTicketPrice w appClient) ;;
       setTicketPrice (Some (JS.div priceMicro JS.million)))
      (fun e =>
         console_error "Error fetching ticket price:" e ;;
         setTicketPrice None ;;
         let errorMessage :=
           JS.error_message_or "Unable to fetch ticket price" e in
         enqueueSnackbar errorMessage v_error).

(** The click handler of the submit button. *)
Definition handleBuyTicket (c : Closure) (w : World) : M unit :=
  let st := cl_state c in
  if negb (has_address (cl_wallet c)) || negb (has_signer (cl_wallet c))
  then enqueueSnackbar "Please connect your wallet first" v_warning
  else if negb (JS.truthy_string (eventId st))
  then enqueueSnackbar "Please enter an Event ID" v_error
  else if negb (JS.truthy_string (receiverAddress st))
  then enqueueSnackbar "Please enter a receiver address" v_error
  else if negb (JS.truthy_opt JS.truthy_number (ticketPrice st))
          || JS.leb (price_number (ticketPrice st)) (JS.of_Z 0)
  then enqueueSnackbar "Ticket price not available" v_error
  else
    setLoading true ;;
    try_finally
      (try_catch
         (appClient <- getAppClient c w ;;
          suggestedParams <-
            call (GetTransactionParams (cl_algodClient c))
                 (getTransactionParams w (cl_algodClient c)) ;;
          let payment :=
            {| sender := address (cl_wallet c);
               receiver := receiverAddress st;
               amount := JS.mul (price_number (ticketPrice st)) JS.million;
               suggestedParams := suggestedParams |} in
          paymentTxn <- call (MakePaymentTxn payment)
                             (makePaymentTxn w payment) ;;
          response <-
            call (BookTicket appClient (JS.Number (eventId st)) paymentTxn)
                 (bookTicket w appClient (JS.Number (eventId st))
                    paymentTxn) ;;
          enqueueSnackbar
            ("Ticket booked successfully! Ticket ID: "
             ++ response_text response) v_success ;;
          closeModal ;;
          setEventId "" ;;
          setReceiverAddress DEFAULT_RECEIVER ;;
          setTicketPrice None ;;
          dispatchEvent "refreshTickets")
         (fun e =>
            console_error "Error booking ticket:" e ;;
            let errorMessage := JS.error_message_or "Unknown error" e in
            enqueueSnackbar ("Error booking ticket: " ++ errorMessage)
              v_error))
      (setLoading false).

(** *** State and view *)

(** What an action does to the state cells. *)
Definition apply_action (s : State) (a : action) : State :=
  match a with
  | SetEventId v =>
      {| eventId := v; receiverAddress := receiverAddress s;
         loading := loading s; ticketPrice := ticketPrice s |}
  | SetReceiverAddress v =>
      {| eventId := eventId s; receiverAddress := v;
         loading := loading s; ticketPrice := ticketPrice s |}
  | SetLoading v =>
      {| eventId := eventId s; receiverAddress := receiverAddress s;
         loading := v; ticketPrice := ticketPrice s |}
  | SetTicketPrice v =>
      {| eventId := eventId s; receiverAddress := receiverAddress s;
         loading := loading s; ticketPrice := v |}
  | _ => s
  end.

Definition apply_trace (s : State) (t : list action) : State :=
  fold_left apply_action t s.

(** The [disabled] attribute of the submit button:
    [loading || !ticketPrice]. *)
Definition submit_disabled (s : State) : bool :=
  loading s || negb (JS.truthy_opt JS.truthy_number (ticketPrice s)).

(** What can happen to a mounted dialog, each asynchronous function
    taken from its start to its end: an edit of one of the two inputs, a
    click on the submit button, a run of the price-fetch effect. The
    closure is the one of the render the function was created in. *)
Inductive Event : Type :=
| ChangeEventId (v : string)
| ChangeReceiverAddress (v : string)
| Submit (c : Closure) (w : World)
| Fetch (c : Closure) (w : World).

(** The actions of an event. *)
Definition event_trace (ev : Event) : list action :=
  match ev with
  | ChangeEventId v => [SetEventId v]
  | ChangeReceiverAddress v => [SetReceiverAddress v]
  | Submit c w => trace (handleBuyTicket c w)
  | Fetch c w => trace (fetchTicketPrice c w)
  end.

Definition step (s : State) (ev : Event) : State :=
  apply_trace s (event_trace ev).

Definition run (s : State) (evs : list Event) : State :=
  fold_left step evs s.

(** All the actions of a sequence of events, in order. *)
Definition timeline (evs : list Event) : list action :=
  flat_map event_trace evs.

(** *** The preconditions of a submission, as the specification lists
    them *)
Inductive Precondition : Type :=
| WalletConnected
| EventIdPresent
| ReceiverPresent
| PricePositive.

Definition holds (c : Closure) (p : Precondition) : bool :=
  match p with
  | WalletConnected =>
      has_address (cl_wallet c) && has_signer (cl_wallet c)
  | EventIdPresent => negb (String.eqb (eventId (cl_state c)) "")
  | ReceiverPresent => negb (String.eqb (receiverAddress (cl_state c)) "")
  | PricePositive =>
      match ticketPrice (cl_state c) with
      | Some x => JS.ltb (JS.of_Z 0) x
      | None => false
      end
  end.

Definition checking_order : list Precondition :=
  [WalletConnected; EventIdPresent; ReceiverPresent; PricePositive].

(** The first precondition, in checking order, that does not hold. *)
Definition first_failing (c : Closure) : option Precondition :=
  find (fun p => negb (holds c p)) checking_order.

(** The point reached after the actions [done] of the events [evs] lies
    inside a submission that passed the four preconditions: after its
    first action and before its last. *)
Definition in_submission (evs : list Event) (done : list action) : Prop :=
  exists (before : list Event) (c : Closure) (w : World)
         (after : list Event) (p q : list action),
    evs = (before ++ Submit c w :: after)%list
    /\ done = (timeline before ++ p)%list
    /\ trace (handleBuyTicket c w) = (p ++ q)%list
    /\ p <> [] /\ q <> []
    /\ first_failing c = None.

(** The notification that answers a missing precondition. *)
Definition rejection (p : Precondition) : action :=
  match p with
  | WalletConnected =>
      EnqueueSnackbar "Please connect your wallet first" v_warning
  | EventIdPresent => EnqueueSnackbar "Please enter an Event ID" v_error
  | ReceiverPresent =>
      EnqueueSnackbar "Please enter a receiver address" v_error
  | PricePositive => EnqueueSnackbar "Ticket price not available" v_error
  end.

(** The preconditions of a price fetch: an identifier and a wallet. *)
Definition can_fetch (c : Closure) : bool :=
  negb (String.eqb (eventId (cl_state c)) "")
  && has_address (cl_wallet c) && has_signer (cl_wallet c).

(** *** Classifying actions *)

Definition is_setter (a : action) : bool :=
  match a with
  | SetEventId _ | SetReceiverAddress _ | SetLoading _ | SetTicketPrice _ =>
      true
  | _ => false
  end.

Definition is_SetLoading (a : action) : bool :=
  match a with
  | SetLoading _ => true
  | _ => false
  end.

Definition is_notification (a : action) : bool :=
  match a with
  | EnqueueSnackbar _ _ => true
  | _ => false
  end.

Definition is_CloseModal (a : action) : bool :=
  match a with
  | CloseModal => true
  | _ => false
  end.

Definition is_DispatchEvent (a : action) : bool :=
  match a with
  | DispatchEvent _ => true
  | _ => false
  end.

Definition is_BookTicket (a : action) : bool :=
  match a with
  | BookTicket _ _ _ => true
  | _ => false
  end.

Definition is_MakePaymentTxn (a : action) : bool :=
  match a with
  | MakePaymentTxn _ => true
  | _ => false
  end.

Definition is_GetTicketPrice (a : action) : bool :=
  match a with
  | GetTicketPrice _ => true
  | _ => false
  end.

(** How many actions of a kind a trace holds. *)
Definition count (kind : action -> bool) (t : list action) : nat :=
  List.length (filter kind t).

End BuyTicketModal.

Arguments memo_deps {D V} _.
Arguments memo_value {D V} _.

(** [m] occurs in [text]. *)
Fixpoint includes (m text : string) : bool :=
  String.prefix m text
  || match text with
     | EmptyString => false
     | String _ rest => includes m rest
     end.

(** ** A concrete platform, to run the component on *)

Module Demo.

#[export] Instance sdk : Sdk := {|
  SuggestedParams := unit;
  Transaction := string;
  AppClient := nat;
  BookingResponse := string;
  response_text := fun r => r;
  AppId := nat;
  CONFIG_APP_ID := 1001;
  CONFIG_IS_DEVELOPMENT := false
|}.

Definition wallet : Wallet :=
  {| transactionSigner := Some 7; activeAddress := Some "BUYER" |}.

Definition no_wallet : Wallet :=
  {| transactionSigner := None; activeAddress := None |}.

(** The state after the user typed [id] and the price [price] was set. *)
Definition filled (id : string) (price : option JS.number) : State :=
  {| eventId := id;
     receiverAddress := DEFAULT_RECEIVER;
     loading := false;
     ticketPrice := price |}.

Definition inputs (s : State) (w : Wallet) (algodConfig : ref) : Inputs :=
  {| in_state := s;
     in_wallet := w;
     in_algodConfig := algodConfig;
     in_enqueueSnackbar := 3 |}.

(** The closure of the first render on these inputs. *)
Definition mounted (s : State) (w : Wallet) : Closure :=
  closure_of (fst (render None (inputs s w 0))) (inputs s w 0).

(** A world where the chain answers: the price is [price] micro-units
    and the booking ends as [booking] says. *)
Definition world (price : Outcome JS.number) (booking : Outcome string)
  : World :=
  {| getClient := fun _ _ => Returns 1;
     getTicketPrice := fun _ => price;
     getTransactionParams := fun _ => Returns tt;
     makePaymentTxn := fun _ => Returns "txn";
     bookTicket := fun _ _ _ => booking |}.

(** A dialog ready to submit: wallet connected, identifier [id] typed,
    a price of 2.5 ALGO fetched. *)
Definition price : JS.number := JS.div (JS.of_Z 2500000) JS.million.

Definition ready (id : string) : Closure :=
  mounted (filled id (Some price)) wallet.

(** The booking goes through, or is rejected with [e]. *)
Definition accepting : World := world (Returns (JS.of_Z 2500000)) (Returns "17").

Definition rejecting (e : JS.thrown) : World :=
  world (Returns (JS.of_Z 2500000)) (Throws e).

(** The remote read of the price fails with [e]. *)
Definition unreadable (e : JS.thrown) : World := world (Throws e) (Returns "17").

(** The state after typing ["42"] and a price fetch that resolved to NaN. *)
Definition nan_priced : State :=
  run initial_state
    [ChangeEventId "42";
     Fetch (mounted (filled "42" None) wallet) (world (Returns JS.NaN) (Returns "17"))].

End Demo.

(** ** The rendered dialog *)

Section View.

Context {sdk : Sdk}.

(** What the JSX of lines 117-165 makes depend on the props and the
    state: the class of the dialog, the values of the two controlled
    inputs, the price line (rendered when [ticketPrice !== null], with the
    number it shows) and the submit button. *)
Record View : Type := {
  dialog_className : string;
  eventId_value : string;
  receiver_value : string;
  price_line : option JS.number;
  button_className : string;
  button_disabled : bool;
  button_label : string
}.

Definition view (openModal : bool) (s : State) : View :=
  {| dialog_className :=
       "modal " ++ (if openModal then "modal-open" else "") ++ " bg-slate-200";
     eventId_value := eventId s;
     receiver_value := receiverAddress s;
     price_line :=
       match ticketPrice s with
       | Some x => Some x
       | None => None
       end;
     button_className :=
       "btn btn-primary " ++ (if loading s then "loading" else "");
     button_disabled := submit_disabled s;
     button_label := if loading s then "Booking..." else "Buy Ticket" |}.

(** *** The SDK calls of a trace *)

Inductive SdkCall : Type :=
| call_getClient
| call_getTicketPrice
| call_getTransactionParams
| call_makePaymentTxn
| call_bookTicket.

Definition sdk_call (a : action) : option SdkCall :=
  match a with
  | GetClient _ _ => Some call_getClient
  | GetTicketPrice _ => Some call_getTicketPrice
  | GetTransactionParams _ => Some call_getTransactionParams
  | MakePaymentTxn _ => Some call_makePaymentTxn
  | BookTicket _ _ _ => Some call_bookTicket
  | _ => None
  end.

Fixpoint sdk_calls (t : list action) : list SdkCall :=
  match t with
  | [] => []
  | a :: t' =>
      match sdk_call a with
      | Some k => k :: sdk_calls t'
      | None => sdk_calls t'
      end
  end.

Definition is_ConsoleError (a : action) : bool :=
  match a with
  | ConsoleError _ _ => true
  | _ => false
  end.

End View.

(** *** Identifiers as the user types them *)

(** [c] is one of [0] to [9]. *)
Definition is_decimal_digit (c : ascii) : bool :=
  ((48 <=? JS.code c) && (JS.code c <=? 57))%Z.

(** The integer a string of decimal digits denotes. *)
Definition decimal_value (s : string) : Z :=
  fold_left (fun acc c => (acc * 10 + (JS.code c - 48))%Z)
    (list_ascii_of_string s) 0%Z.

Definition all_chars (p : ascii -> bool) (s : string) : bool :=
  forallb p (list_ascii_of_string s).

(** *** Numbers with a short binary expansion *)

(** The number [m * 2^e], for a positive integer [m] below 2^53: the
    mantissa is [m] shifted to 53 bits. *)
Definition dyadic (m e : Z) : JS.number :=
  S754_finite false (Z.to_pos (m * 2 ^ (52 - Z.log2 m)))
    (e - (52 - Z.log2 m))%Z.

(** ** More concrete worlds *)

Module Scenario.

Import Demo.

(** The node cannot be reached: [getTransactionParams] throws. *)
Definition offline : World :=
  {| getClient := fun _ _ => Returns 1;
     getTicketPrice := fun _ => Returns (JS.of_Z 2500000);
     getTransactionParams :=
       fun _ => Throws (JS.ErrorInstance "Network request failed");
     makePaymentTxn := fun _ => Returns "txn";
     bookTicket := fun _ _ _ => Returns "17" |}.

Definition other_wallet : Wallet :=
  {| transactionSigner := Some 8; activeAddress := Some "SELLER" |}.

(** The first render with one wallet, a second one after the user
    switched to another account. *)
Definition first_inputs : Inputs := inputs (filled "42" None) wallet 0.
Definition switched_inputs : Inputs := inputs (filled "42" None) other_wallet 0.

Definition first_hooks : Hooks := fst (render None first_inputs).
Definition switched_hooks : Hooks :=
  fst (render (Some first_hooks) switched_inputs).

(** The state a successful price fetch of 2500000 micro-units leaves. *)
Definition fetched : State :=
  apply_trace (filled "42" None)
    (trace (fetchTicketPrice (mounted (filled "42" None) wallet) accepting)).

End Scenario.

(** * Properties *)

(** ** JavaScript primitives *)

Lemma truthy_string_nonempty (s : string) :
  JS.truthy_string s = negb (String.eqb s "").
Proof. destruct s; reflexivity. Qed.

Lemma truthy_string_true_iff (s : string) :
  JS.truthy_string s = true <-> s <> ""%string.
Proof. destruct s; simpl; split; congruence. Qed.

(** [x] passes [!x || x <= 0] as false exactly when [0 < x]. *)
Lemma positive_number (x : JS.number) :
  negb (JS.truthy_number x) || JS.leb x (JS.of_Z 0) = negb (JS.ltb (JS.of_Z 0) x).
Proof. destruct x as [s | s | | s m e]; try destruct s; reflexivity. Qed.

Lemma Number_of_non_numeral (s : string) :
  JS.is_numeral s = false -> JS.Number s = JS.NaN.
Proof.
  unfold JS.is_numeral, JS.Number.
  destruct (JS.StringToNumber s); [discriminate | reflexivity].
Qed.

Example Number_42 : JS.Number "42" = JS.of_Z 42.
Proof. vm_compute. reflexivity. Qed.

Example Number_padded : JS.Number "  42 " = JS.of_Z 42.
Proof. vm_compute. reflexivity. Qed.

Example Number_blank : JS.Number " " = JS.of_Z 0.
Proof. vm_compute. reflexivity. Qed.

Example Number_exponent : JS.Number "1e3" = JS.of_Z 1000.
Proof. vm_compute. reflexivity. Qed.

Example Number_hex : JS.Number "0x1F" = JS.of_Z 31.
Proof. vm_compute. reflexivity. Qed.

Example Number_fraction :
  JS.Number "2.01" = JS.div (JS.of_Z 201) (JS.of_Z 100).
Proof. vm_compute. reflexivity. Qed.

Example Number_letters : JS.Number "abc" = JS.NaN.
Proof. vm_compute. reflexivity. Qed.

Example Number_unit_suffix : JS.Number "12px" = JS.NaN.
Proof. vm_compute. reflexivity. Qed.

Example million_is_canonical :
  JS.million = S754_finite false 8589934592000000 (-33).
Proof. vm_compute. reflexivity. Qed.

(** ** Traces and the state *)

Section Traces.

Context {sdk : Sdk}.
Local Open Scope list_scope.

(** The monad laws. *)
Lemma bind_ret_l {A B} (a : A) (k : A -> M B) : bind (ret a) k = k a.
Proof. unfold bind, ret. destruct (k a). reflexivity. Qed.

Lemma bind_ret_r {A} (m : M A) : bind m ret = m.
Proof.
  destruct m as [t [a | e]]; unfold bind, ret; [| reflexivity].
  rewrite app_nil_r. reflexivity.
Qed.

Lemma bind_assoc {A B C} (m : M A) (k : A -> M B) (k' : B -> M C) :
  bind (bind m k) k' = bind m (fun a => bind (k a) k').
Proof.
  destruct m as [t [a | e]]; unfold bind; [| reflexivity].
  destruct (k a) as [t1 [b | e]]; [| reflexivity].
  destruct (k' b) as [t2 o]. rewrite app_assoc. reflexivity.
Qed.

(** A caught exception does not leave [try]/[catch] when the handler
    returns, and [finally] runs on both ways out. *)
Lemma try_catch_returns {A} (body : M A) (handler : JS.thrown -> M A) :
  (forall e, exists t a, handler e = (t, Returns a)) ->
  exists t a, try_catch body handler = (t, Returns a).
Proof.
  intros H. destruct body as [t [a | e]]; simpl.
  - exists t, a. reflexivity.
  - destruct (H e) as (t' & a & ->). exists (t ++ t'), a. reflexivity.
Qed.

Lemma try_finally_trace {A} (body : M A) (final : M unit) :
  trace (try_finally body final) = trace body ++ trace final.
Proof. destruct body as [t o], final as [t' [[] | e]]; reflexivity. Qed.

Lemma apply_trace_app (s : State) (t u : list action) :
  apply_trace s (t ++ u) = apply_trace (apply_trace s t) u.
Proof. apply fold_left_app. Qed.

(** A trace without [setLoading] leaves the flag as it is. *)
Lemma loading_preserved (t : list action) (s : State) :
  forallb (fun a => negb (is_SetLoading a)) t = true ->
  loading (apply_trace s t) = loading s.
Proof.
  revert s. induction t as [| a t IH]; intros s H; [reflexivity |].
  simpl in H. apply andb_prop in H. destruct H as [Ha Ht].
  unfold apply_trace in *. simpl. rewrite (IH _ Ht).
  destruct a; simpl in *; try reflexivity; discriminate.
Qed.

Lemma forallb_prefix {A} (f : A -> bool) (pre suf : list A) :
  forallb f (pre ++ suf) = true -> forallb f pre = true.
Proof. rewrite forallb_app. intros H. apply andb_prop in H. apply H. Qed.

(** The flag along [setLoading(true); body; setLoading(false)], where
    the body does not touch it: up after the first action, down after
    the last. *)
Lemma loading_window (body pre suf : list action) (s : State) :
  forallb (fun a => negb (is_SetLoading a)) body = true ->
  SetLoading true :: body ++ [SetLoading false] = pre ++ suf ->
  loading (apply_trace s pre) =
    match pre, suf with
    | [], _ => loading s
    | _, [] => false
    | _, _ => true
    end.
Proof.
  intros Hbody Heq.
  destruct pre as [| a pre]; [reflexivity |].
  simpl in Heq. injection Heq as <- Heq.
  destruct suf as [| b suf].
  - rewrite app_nil_r in Heq. subst pre.
    change (loading (apply_trace s (SetLoading true :: body ++ [SetLoading false])) = false).
    change (SetLoading true :: body ++ [SetLoading false])
      with (([SetLoading true] ++ body) ++ [SetLoading false]).
    rewrite apply_trace_app. reflexivity.
  - assert (Hpre : exists rest, body = pre ++ rest).
    { destruct (exists_last (l := b :: suf)) as (suf' & z & Hs); [discriminate |].
      rewrite Hs, app_assoc in Heq.
      apply app_inj_tail in Heq. destruct Heq as [Hb _].
      exists suf'. exact Hb. }
    destruct Hpre as [rest ->].
    change (loading (apply_trace (apply_action s (SetLoading true)) pre) = true).
    rewrite loading_preserved by (apply (forallb_prefix _ _ _ Hbody)).
    reflexivity.
Qed.

End Traces.

(** ** The guards *)

Section Guards.

Context {sdk : Sdk}.

Implicit Types (c : Closure).

(** The guards of the handler are the negated preconditions. *)
Lemma wallet_guard c :
  negb (has_address (cl_wallet c)) || negb (has_signer (cl_wallet c))
  = negb (holds c WalletConnected).
Proof. simpl. rewrite negb_andb. reflexivity. Qed.

Lemma eventId_guard c :
  negb (JS.truthy_string (eventId (cl_state c)))
  = negb (holds c EventIdPresent).
Proof. simpl. rewrite truthy_string_nonempty. reflexivity. Qed.

Lemma receiver_guard c :
  negb (JS.truthy_string (receiverAddress (cl_state c)))
  = negb (holds c ReceiverPresent).
Proof. simpl. rewrite truthy_string_nonempty. reflexivity. Qed.

Lemma price_guard c :
  negb (JS.truthy_opt JS.truthy_number (ticketPrice (cl_state c)))
  || JS.leb (price_number (ticketPrice (cl_state c))) (JS.of_Z 0)
  = negb (holds c PricePositive).
Proof.
  simpl. destruct (ticketPrice (cl_state c)) as [x |]; simpl.
  - apply positive_number.
  - reflexivity.
Qed.

Lemma first_failing_none c :
  first_failing c = None <->
  holds c WalletConnected = true /\ holds c EventIdPresent = true
  /\ holds c ReceiverPresent = true /\ holds c PricePositive = true.
Proof.
  unfold first_failing, checking_order. cbn [find].
  destruct (holds c WalletConnected), (holds c EventIdPresent),
    (holds c ReceiverPresent), (holds c PricePositive); cbn;
    intuition discriminate.
Qed.

Lemma fetch_guard c :
  negb (JS.truthy_string (eventId (cl_state c)))
  || negb (has_address (cl_wallet c)) || negb (has_signer (cl_wallet c))
  = negb (can_fetch c).
Proof.
  unfold can_fetch. rewrite truthy_string_nonempty, !negb_andb.
  reflexivity.
Qed.

End Guards.

(** Unfolds the handler on a closure that passed the four checks and
    splits on how each SDK call ends. *)
Ltac run_handler c w :=
  unfold handleBuyTicket, getAppClient;
  rewrite ?wallet_guard, ?eventId_guard, ?receiver_guard, ?price_guard;
  repeat match goal with
         | H : holds c _ = true |- _ => rewrite H
         end;
  cbn [negb];
  destruct (cl_appFactory c) as [factory |]; cbn;
  [ destruct (getClient w factory CONFIG_APP_ID) as [client' | e1]; cbn;
    [ destruct (getTransactionParams w (cl_algodClient c)) as [params | e2];
      cbn;
      [ match goal with
        | |- context [makePaymentTxn w ?p] =>
            destruct (makePaymentTxn w p) as [txn' | e3] eqn:Hmake; cbn;
            [ match goal with
              | |- context [bookTicket w ?a ?b ?t] =>
                  destruct (bookTicket w a b t) as [resp | e4] eqn:Hbook;
                  cbn
              end
            | ]
        end
      | ]
    | ]
  | ].

(** Unfolds the effect on a closure that passed its guard and splits on
    how each SDK call ends. *)
Ltac run_fetch c w :=
  unfold fetchTicketPrice, getAppClient;
  rewrite ?fetch_guard;
  repeat match goal with
         | H : can_fetch c = true |- _ => rewrite H
         end;
  cbn [negb];
  destruct (cl_appFactory c) as [factory |]; cbn;
  [ destruct (getClient w factory CONFIG_APP_ID) as [client' | e1]; cbn;
    [ destruct (getTicketPrice w client') as [price | e2] eqn:Hprice; cbn
    | ]
  | ].

(** ** Hooks *)

Section HooksInvariant.

Context {sdk : Sdk}.

Lemma same_opt_string (x y : option string) :
  same_opt String.eqb x y = true <-> x = y.
Proof.
  destruct x as [a |], y as [b |]; simpl; try (split; congruence).
  rewrite String.eqb_eq. split; congruence.
Qed.

Lemma same_opt_ref (x y : option ref) :
  same_opt Nat.eqb x y = true <-> x = y.
Proof.
  destruct x as [a |], y as [b |]; simpl; try (split; congruence).
  rewrite Nat.eqb_eq. split; congruence.
Qed.

Lemma same_factory_deps_eq (a b : ref * option string * option ref) :
  same_factory_deps a b = true <-> a = b.
Proof.
  destruct a as [[c1 a1] s1], b as [[c2 a2] s2]. simpl.
  rewrite !andb_true_iff, Nat.eqb_eq, same_opt_string, same_opt_ref.
  split; [intros [[-> ->] ->]; reflexivity | intros [= -> -> ->]; auto].
Qed.

(** The factory only depends on the wallet through its two fields. *)
Lemma create_appFactory_ext (id algodClient : ref) (w w' : Wallet) :
  activeAddress w = activeAddress w' ->
  transactionSigner w = transactionSigner w' ->
  create_appFactory id algodClient w = create_appFactory id algodClient w'.
Proof.
  destruct w, w'. simpl. intros -> ->. reflexivity.
Qed.

(** The memo body yields a factory exactly for a connected wallet. *)
Lemma create_appFactory_connected (id algodClient : ref) (w : Wallet) :
  has_address w && has_signer w = true ->
  exists a sg,
    activeAddress w = Some a /\ transactionSigner w = Some sg
    /\ create_appFactory id algodClient w
       = Some {| fac_id := id;
                 fac_algodClient := algodClient;
                 fac_address := a;
                 fac_signer := sg;
                 fac_isDevelopment := CONFIG_IS_DEVELOPMENT |}.
Proof.
  unfold create_appFactory, has_address, has_signer.
  destruct (activeAddress w) as [a |], (transactionSigner w) as [sg |];
    simpl; try (rewrite ?andb_false_r; discriminate).
  rewrite andb_true_r. intros ->. exists a, sg. auto.
Qed.

Lemma create_appFactory_disconnected (id algodClient : ref) (w : Wallet) :
  has_address w && has_signer w = false ->
  create_appFactory id algodClient w = None.
Proof.
  unfold create_appFactory. intros H.
  rewrite <- negb_andb, H. reflexivity.
Qed.

Lemma create_appFactory_id (id algodClient : ref) (w : Wallet) :
  option_map fac_id (create_appFactory id algodClient w)
  = if has_address w && has_signer w then Some id else None.
Proof.
  destruct (has_address w && has_signer w) eqn:H.
  - destruct (create_appFactory_connected id algodClient w H)
      as (a & sg & _ & _ & ->). reflexivity.
  - rewrite (create_appFactory_disconnected id algodClient w H). reflexivity.
Qed.

Lemma hooks_ok_mount (i : Inputs) : hooks_ok (fst (render None i)) i.
Proof.
  unfold hooks_ok, render, useMemo. simpl.
  repeat split; try reflexivity; try lia.
  exists 1. split; [lia | reflexivity].
Qed.

Lemma hooks_ok_update (h : Hooks) (i0 i : Inputs) :
  hooks_ok h i0 -> hooks_ok (fst (render (Some h) i)) i.
Proof.
  intros (Hcd & Hcv & Hfd & (id0 & Hid0 & Hfv) & Hgd & Hgv & Hgi & He).
  unfold hooks_ok, render, useMemo. cbn [option_map fst snd hk_next
    hk_algodClient hk_appFactory hk_getAppClient hk_effectDeps].
  set (n := hk_next h) in *.
  set (client :=
         if Nat.eqb (memo_deps (hk_algodClient h)) (in_algodConfig i)
         then hk_algodClient h
         else {| memo_deps := in_algodConfig i; memo_value := n |}).
  assert (Hclient_deps : memo_deps client = in_algodConfig i).
  { subst client. destruct (Nat.eqb_spec (memo_deps (hk_algodClient h))
                              (in_algodConfig i)); [assumption | reflexivity]. }
  assert (Hclient_val : memo_value client < S (S (S n))).
  { subst client. destruct (Nat.eqb (memo_deps (hk_algodClient h))
                              (in_algodConfig i)); simpl; lia. }
  set (fdeps := (memo_value client, activeAddress (in_wallet i),
                 transactionSigner (in_wallet i))).
  set (factory :=
         if same_factory_deps (memo_deps (hk_appFactory h)) fdeps
         then hk_appFactory h
         else {| memo_deps := fdeps;
                 memo_value :=
                   create_appFactory (S n) (memo_value client) (in_wallet i) |}).
  assert (Hfactory_deps : memo_deps factory = fdeps).
  { subst factory. destruct (same_factory_deps (memo_deps (hk_appFactory h))
                               fdeps) eqn:E; [| reflexivity].
    apply same_factory_deps_eq, E. }
  assert (Hfactory_val :
            (factory = hk_appFactory h
             /\ memo_value factory
                = create_appFactory id0 (memo_value client) (in_wallet i))
            \/ memo_value factory
               = create_appFactory (S n) (memo_value client) (in_wallet i)).
  { subst factory. destruct (same_factory_deps (memo_deps (hk_appFactory h))
                               fdeps) eqn:E; [left | right; reflexivity].
    apply same_factory_deps_eq in E. rewrite Hfd in E.
    subst fdeps. injection E as E1 E2 E3.
    split; [reflexivity |]. rewrite Hfv, E1.
    apply create_appFactory_ext; assumption. }
  set (callback :=
         if same_opt Nat.eqb (memo_deps (hk_getAppClient h))
              (option_map fac_id (memo_value factory))
         then hk_getAppClient h
         else {| memo_deps := option_map fac_id (memo_value factory);
                 memo_value := (S (S n), memo_value factory) |}).
  assert (Hcb : memo_deps callback = option_map fac_id (memo_value factory)
                /\ snd (memo_value callback) = memo_value factory
                /\ fst (memo_value callback) < S (S (S n))).
  { subst callback.
    destruct (same_opt Nat.eqb (memo_deps (hk_getAppClient h))
                (option_map fac_id (memo_value factory))) eqn:E;
      [| simpl; repeat split; lia].
    apply same_opt_ref in E. split; [exact E |]. split; [| lia].
    rewrite Hgv. rewrite Hgd, Hfv in E.
    destruct Hfactory_val as [[-> _] | Hnew]; [reflexivity |].
    rewrite Hnew in E |- *. rewrite !create_appFactory_id in E.
    destruct (has_address (in_wallet i0) && has_signer (in_wallet i0)) eqn:E0,
      (has_address (in_wallet i) && has_signer (in_wallet i)) eqn:E1;
      try discriminate.
    - injection E as E. lia.
    - rewrite Hfv, !create_appFactory_disconnected by assumption.
      reflexivity. }
  destruct Hcb as (Hcb1 & Hcb2 & Hcb3).
  repeat split; try assumption.
  destruct Hfactory_val as [[_ Hold] | Hnew].
  - exists id0. split; [lia | exact Hold].
  - exists (S n). split; [lia | exact Hnew].
Qed.

(** Every render of a mounted component leaves the hook cells in order. *)
Lemma rendered_ok (h : Hooks) (i : Inputs) : rendered h i -> hooks_ok h i.
Proof.
  induction 1 as [i | h i0 i _ IH].
  - apply hooks_ok_mount.
  - apply (hooks_ok_update h i0 i IH).
Qed.

Lemma useMemo_kept {D V} (same : D -> D -> bool) (cell : Memo D V)
    (deps : D) (create : unit -> V) :
  same (memo_deps cell) deps = true ->
  useMemo same (Some cell) deps create = cell.
Proof. unfold useMemo. intros ->. reflexivity. Qed.

Lemma useMemo_fresh {D V} (same : D -> D -> bool) (cell : Memo D V)
    (deps : D) (create : unit -> V) :
  same (memo_deps cell) deps = false ->
  useMemo same (Some cell) deps create
  = {| memo_deps := deps; memo_value := create tt |}.
Proof. unfold useMemo. intros ->. reflexivity. Qed.

Lemma connected_ext (w w' : Wallet) :
  activeAddress w = activeAddress w' ->
  transactionSigner w = transactionSigner w' ->
  has_address w && has_signer w = has_address w' && has_signer w'.
Proof. destruct w, w'. simpl. intros -> ->. reflexivity. Qed.

(** With the wallet unchanged, the [getAppClient] callback of the next
    render is the previous one unless the algod configuration object was
    replaced while a wallet is connected. *)
Lemma getAppClient_identity (h : Hooks) (i0 i : Inputs) :
  hooks_ok h i0 ->
  activeAddress (in_wallet i) = activeAddress (in_wallet i0) ->
  transactionSigner (in_wallet i) = transactionSigner (in_wallet i0) ->
  fst (memo_value (hk_getAppClient (fst (render (Some h) i))))
  = fst (memo_value (hk_getAppClient h))
  <-> (in_algodConfig i = in_algodConfig i0
       \/ has_address (in_wallet i) && has_signer (in_wallet i) = false).
Proof.
  intros (Hcd & Hcv & Hfd & (id0 & Hid0 & Hfv) & Hgd & Hgv & Hgi & He) Ha Hs.
  unfold render. cbn [option_map fst snd hk_getAppClient].
  destruct (Nat.eqb_spec (memo_deps (hk_algodClient h)) (in_algodConfig i))
    as [Hsame | Hdiff].
  - rewrite (useMemo_kept Nat.eqb) by (apply Nat.eqb_eq, Hsame).
    rewrite (useMemo_kept same_factory_deps)
      by (apply same_factory_deps_eq; rewrite Hfd, Ha, Hs; reflexivity).
    rewrite (useMemo_kept (same_opt Nat.eqb))
      by (apply same_opt_ref; exact Hgd).
    split; [intros _; left; congruence | reflexivity].
  - rewrite (useMemo_fresh Nat.eqb)
      by (apply Nat.eqb_neq, Hdiff).
    cbn [memo_value].
    rewrite (useMemo_fresh same_factory_deps).
    2:{ apply not_true_iff_false. intros E.
        apply same_factory_deps_eq in E. rewrite Hfd in E.
        injection E as E _ _. lia. }
    cbn [memo_value].
    rewrite Hcd in Hdiff.
    destruct (has_address (in_wallet i) && has_signer (in_wallet i)) eqn:Hconn.
    + rewrite (useMemo_fresh (same_opt Nat.eqb)).
      2:{ apply not_true_iff_false. intros E. apply same_opt_ref in E.
          rewrite Hgd, Hfv, !create_appFactory_id, Hconn in E.
          rewrite <- (connected_ext _ _ Ha Hs), Hconn in E.
          injection E as E. lia. }
      cbn [memo_value fst].
      split; [lia | intros [E | E]; [congruence | discriminate]].
    + rewrite (useMemo_kept (same_opt Nat.eqb)).
      2:{ apply same_opt_ref.
          rewrite Hgd, Hfv, !create_appFactory_id, Hconn.
          rewrite <- (connected_ext _ _ Ha Hs), Hconn. reflexivity. }
      split; [intros _; right; reflexivity | reflexivity].
Qed.

(** When the effect runs again: after a render in which one of its five
    dependencies changed. The callback among them changes with the wallet
    and, while a wallet is connected, with the algod configuration
    object. *)
Lemma effect_runs_again (h : Hooks) (i0 i : Inputs) :
  hooks_ok h i0 ->
  snd (render (Some h) i) = true
  <-> (eventId (in_state i) <> eventId (in_state i0)
       \/ activeAddress (in_wallet i) <> activeAddress (in_wallet i0)
       \/ transactionSigner (in_wallet i) <> transactionSigner (in_wallet i0)
       \/ in_enqueueSnackbar i <> in_enqueueSnackbar i0
       \/ (in_algodConfig i <> in_algodConfig i0
           /\ has_address (in_wallet i) && has_signer (in_wallet i) = true)).
Proof.
  intros Hok.
  pose proof (getAppClient_identity h i0 i Hok) as Hcb.
  destruct Hok as (_ & _ & _ & _ & _ & _ & _ & He).
  change (snd (render (Some h) i))
    with (negb (same_deps (hk_effectDeps h)
                  (hk_effectDeps (fst (render (Some h) i))))).
  change (hk_effectDeps (fst (render (Some h) i)))
    with {| dep_eventId := eventId (in_state i);
            dep_activeAddress := activeAddress (in_wallet i);
            dep_transactionSigner := transactionSigner (in_wallet i);
            dep_getAppClient :=
              fst (memo_value (hk_getAppClient (fst (render (Some h) i))));
            dep_enqueueSnackbar := in_enqueueSnackbar i |}.
  rewrite He. unfold same_deps.
  cbn [dep_eventId dep_activeAddress dep_transactionSigner dep_getAppClient
       dep_enqueueSnackbar].
  set (cb' := fst (memo_value (hk_getAppClient (fst (render (Some h) i))))) in *.
  set (cb := fst (memo_value (hk_getAppClient h))) in *.
  destruct (String.eqb_spec (eventId (in_state i0)) (eventId (in_state i)))
    as [He1 | He1]; [| split; [intros _; left; congruence | reflexivity]].
  destruct (same_opt String.eqb (activeAddress (in_wallet i0))
              (activeAddress (in_wallet i))) eqn:Ea.
  2:{ split; [intros _ | reflexivity]. right; left. intros E.
      rewrite E in Ea.
      assert (same_opt String.eqb (activeAddress (in_wallet i0))
                (activeAddress (in_wallet i0)) = true)
        by (apply same_opt_string; reflexivity).
      congruence. }
  apply same_opt_string in Ea.
  destruct (same_opt Nat.eqb (transactionSigner (in_wallet i0))
              (transactionSigner (in_wallet i))) eqn:Es.
  2:{ split; [intros _ | reflexivity]. right; right; left. intros E.
      rewrite E in Es.
      assert (same_opt Nat.eqb (transactionSigner (in_wallet i0))
                (transactionSigner (in_wallet i0)) = true)
        by (apply same_opt_ref; reflexivity).
      congruence. }
  apply same_opt_ref in Es.
  specialize (Hcb (eq_sym Ea) (eq_sym Es)).
  cbn [andb].
  destruct (Nat.eqb_spec cb cb') as [Ecb | Ecb];
    destruct (Nat.eqb_spec (in_enqueueSnackbar i0) (in_enqueueSnackbar i))
      as [Esn | Esn]; cbn [andb negb].
  - split; [discriminate |].
    intros [E | [E | [E | [E | [E1 E2]]]]]; try congruence.
    destruct (proj1 Hcb (eq_sym Ecb)) as [E | E]; congruence.
  - split; [intros _ | reflexivity]. do 3 right; left. congruence.
  - split; [intros _ | reflexivity]. do 4 right.
    destruct (Nat.eq_dec (in_algodConfig i) (in_algodConfig i0)) as [E | E].
    + exfalso. apply Ecb. symmetry. apply Hcb. left. exact E.
    + split; [exact E |].
      destruct (has_address (in_wallet i) && has_signer (in_wallet i)) eqn:Hc;
        [reflexivity |].
      exfalso. apply Ecb. symmetry. apply Hcb. right. reflexivity.
  - split; [intros _ | reflexivity]. do 3 right; left. congruence.
Qed.

(** The factory a render holds is null exactly without a connected
    wallet, and it is the one the handlers of that render see. *)
Lemma appFactory_null_iff (h : Hooks) (i : Inputs) :
  hooks_ok h i ->
  cl_appFactory (closure_of h i) = memo_value (hk_appFactory h)
  /\ (memo_value (hk_appFactory h) = None
      <-> has_address (in_wallet i) && has_signer (in_wallet i) = false).
Proof.
  intros (_ & _ & _ & (id0 & _ & Hfv) & _ & Hgv & _ & _).
  split; [exact Hgv |].
  rewrite Hfv.
  destruct (has_address (in_wallet i) && has_signer (in_wallet i)) eqn:Hc.
  - destruct (create_appFactory_connected id0 (memo_value (hk_algodClient h))
                (in_wallet i) Hc) as (a & sg & _ & _ & ->).
    split; discriminate.
  - rewrite (create_appFactory_disconnected _ _ _ Hc).
    split; reflexivity.
Qed.

End HooksInvariant.

(** ** The price-fetch effect *)

Section PriceFetch.

Context {sdk : Sdk}.
Local Open Scope list_scope.

Implicit Types (c : Closure) (w : World) (s : State).

(** Without an identifier or a wallet the effect only clears the price. *)
Lemma fetchTicketPrice_skips c w :
  can_fetch c = false ->
  fetchTicketPrice c w = ([SetTicketPrice None], Returns tt).
Proof.
  intros H. unfold fetchTicketPrice. rewrite fetch_guard, H. reflexivity.
Qed.

(** The effect never throws. *)
Lemma fetchTicketPrice_returns c w :
  outcome (fetchTicketPrice c w) = Returns tt.
Proof.
  destruct (can_fetch c) eqn:H.
  - run_fetch c w; reflexivity.
  - rewrite (fetchTicketPrice_skips c w H). reflexivity.
Qed.

(** The remote read is only made once the guard has passed. *)
Lemma price_call_made c w (client : AppClient) :
  In (GetTicketPrice client) (trace (fetchTicketPrice c w)) ->
  can_fetch c = true.
Proof.
  destruct (can_fetch c) eqn:H; [reflexivity |].
  rewrite (fetchTicketPrice_skips c w H). simpl.
  intros [Hin | []]. discriminate.
Qed.

(** C4: when the price fetch succeeds with the micro-unit value [p], the
    effect sets [ticketPrice] to [p / 1_000_000]. *)
Theorem C4_fetched_price_is_scaled_down c w s (client : AppClient)
    (p : JS.number) :
  In (GetTicketPrice client) (trace (fetchTicketPrice c w)) ->
  getTicketPrice w client = Returns p ->
  ticketPrice (apply_trace s (trace (fetchTicketPrice c w)))
  = Some (JS.div p JS.million)
  /\ filter is_setter (trace (fetchTicketPrice c w))
     = [SetTicketPrice (Some (JS.div p JS.million))]
  /\ count is_notification (trace (fetchTicketPrice c w)) = 0.
Proof.
  intros Hin Hp. pose proof (price_call_made c w client Hin) as Hg.
  revert Hin. change JS.million with (JS.of_Z 1000000).
  run_fetch c w; intros Hin;
    repeat (destruct Hin as [Hin | Hin]; try discriminate Hin);
    try contradiction.
  - injection Hin as <-. rewrite Hprice in Hp. injection Hp as <-.
    repeat split; reflexivity.
  - injection Hin as <-. rewrite Hprice in Hp. discriminate.
Qed.

(** A failing remote read: the price is cleared, one error notification
    is shown and the read is not attempted again. *)
Lemma failed_fetch c w s (client : AppClient) (e : JS.thrown) :
  In (GetTicketPrice client) (trace (fetchTicketPrice c w)) ->
  getTicketPrice w client = Throws e ->
  ticketPrice (apply_trace s (trace (fetchTicketPrice c w))) = None
  /\ filter is_setter (trace (fetchTicketPrice c w)) = [SetTicketPrice None]
  /\ filter is_notification (trace (fetchTicketPrice c w))
     = [EnqueueSnackbar
          (JS.error_message_or "Unable to fetch ticket price" e) v_error]
  /\ filter is_GetTicketPrice (trace (fetchTicketPrice c w))
     = [GetTicketPrice client].
Proof.
  intros Hin Hp. pose proof (price_call_made c w client Hin) as Hg.
  revert Hin.
  run_fetch c w; intros Hin;
    repeat (destruct Hin as [Hin | Hin]; try discriminate Hin);
    try contradiction.
  - injection Hin as <-. rewrite Hprice in Hp. discriminate.
  - injection Hin as <-. rewrite Hprice in Hp. injection Hp as <-.
    repeat split; reflexivity.
Qed.

(** The effect never touches the busy flag. *)
Lemma fetch_keeps_loading c w :
  forallb (fun a => negb (is_SetLoading a)) (trace (fetchTicketPrice c w))
  = true.
Proof.
  destruct (can_fetch c) eqn:H.
  - run_fetch c w; reflexivity.
  - rewrite (fetchTicketPrice_skips c w H). reflexivity.
Qed.

End PriceFetch.

(** ** The submit handler *)

Section Submission.

Context {sdk : Sdk}.
Local Open Scope list_scope.

Implicit Types (c : Closure) (w : World) (s : State).

(** A missing precondition ends the handler with its notification
    alone. *)
Lemma handleBuyTicket_rejects c w (p : Precondition) :
  first_failing c = Some p ->
  handleBuyTicket c w = ([rejection p], Returns tt).
Proof.
  unfold first_failing, checking_order, handleBuyTicket. cbn [find].
  rewrite wallet_guard, eventId_guard, receiver_guard, price_guard.
  destruct (holds c WalletConnected); cbn [negb];
    [| intros [= <-]; reflexivity].
  destruct (holds c EventIdPresent); cbn [negb];
    [| intros [= <-]; reflexivity].
  destruct (holds c ReceiverPresent); cbn [negb];
    [| intros [= <-]; reflexivity].
  destruct (holds c PricePositive); cbn [negb];
    [discriminate | intros [= <-]; reflexivity].
Qed.

Lemma rejection_injective (p q : Precondition) :
  rejection p = rejection q -> p = q.
Proof. destruct p, q; simpl; intros H; try reflexivity; discriminate. Qed.

(** When the four checks pass, the handler sets the flag, runs the
    guarded block and clears the flag, whatever the SDK calls do. *)
Lemma handleBuyTicket_window c w :
  first_failing c = None ->
  exists body,
    handleBuyTicket c w
    = (SetLoading true :: body ++ [SetLoading false], Returns tt)
    /\ forallb (fun a => negb (is_SetLoading a)) body = true.
Proof.
  intros H. apply first_failing_none in H. destruct H as (H1 & H2 & H3 & H4).
  run_handler c w.
  all: match goal with
       | |- exists body, (SetLoading true :: ?t, _) = _ /\ _ =>
           exists (removelast t); split; reflexivity
       end.
Qed.

(** C1: the four preconditions of a submission are checked in the order
    wallet connected, event identifier present, receiver address present,
    price positive; the first one that fails ends [handleBuyTicket] at once
    with its own warning or error notification, no booking call and no
    change of the component state. *)
Theorem C1_first_failing_precondition_rejects c w (p : Precondition) :
  first_failing c = Some p ->
  handleBuyTicket c w = ([rejection p], Returns tt)
  /\ (exists message variant,
        rejection p = EnqueueSnackbar message variant
        /\ variant <> v_success)
  /\ (forall q, rejection q = rejection p -> q = p)
  /\ count is_BookTicket (trace (handleBuyTicket c w)) = 0
  /\ forall s, apply_trace s (trace (handleBuyTicket c w)) = s.
Proof.
  intros H. rewrite (handleBuyTicket_rejects c w p H).
  split; [reflexivity |].
  split; [destruct p; simpl; do 2 eexists; (split; [reflexivity | discriminate]) |].
  split; [intros q; apply rejection_injective |].
  split; [destruct p; reflexivity |].
  intros s. destruct p; reflexivity.
Qed.

(** The booking call, when it is made, gets [Number(eventId)] and the
    transaction built from the payment object. *)
Lemma booking_arguments c w (client : AppClient) (n : JS.number)
    (txn : Transaction) :
  In (BookTicket client n txn) (trace (handleBuyTicket c w)) ->
  first_failing c = None
  /\ n = JS.Number (eventId (cl_state c))
  /\ exists pay,
       In (MakePaymentTxn pay) (trace (handleBuyTicket c w))
       /\ makePaymentTxn w pay = Returns txn.
Proof.
  destruct (first_failing c) as [p |] eqn:Hff.
  - rewrite (handleBuyTicket_rejects c w p Hff).
    destruct p; simpl; intros [H | []]; discriminate.
  - split; [reflexivity |]. revert H.
    apply first_failing_none in Hff. destruct Hff as (H1 & H2 & H3 & H4).
    run_handler c w; intros Hin;
      repeat (destruct Hin as [Hin | Hin]; try discriminate Hin);
      try contradiction.
    + injection Hin as <- <- <-. split; [reflexivity |].
      eexists. split; [right; right; right; left; reflexivity | exact Hmake].
    + injection Hin as <- <- <-. split; [reflexivity |].
      eexists. split; [right; right; right; left; reflexivity | exact Hmake].
Qed.

(** The payment object: sender, receiver and amount. *)
Lemma payment_fields c w (pay : PaymentParams) :
  In (MakePaymentTxn pay) (trace (handleBuyTicket c w)) ->
  activeAddress (cl_wallet c) = Some (sender pay)
  /\ receiver pay = receiverAddress (cl_state c)
  /\ exists price,
       ticketPrice (cl_state c) = Some price
       /\ amount pay = JS.mul price JS.million.
Proof.
  destruct (first_failing c) as [p |] eqn:Hff.
  - rewrite (handleBuyTicket_rejects c w p Hff).
    destruct p; simpl; intros [H | []]; discriminate.
  - apply first_failing_none in Hff. destruct Hff as (H1 & H2 & H3 & H4).
    assert (Haddr : activeAddress (cl_wallet c) = Some (address (cl_wallet c))).
    { simpl in H1. unfold has_address, address in *.
      destruct (activeAddress (cl_wallet c)); [reflexivity | discriminate]. }
    assert (Hprice : exists price, ticketPrice (cl_state c) = Some price).
    { simpl in H4. destruct (ticketPrice (cl_state c)) as [x |];
        [exists x; reflexivity | discriminate]. }
    destruct Hprice as [price Hprice].
    run_handler c w; intros Hin;
      repeat (destruct Hin as [Hin | Hin]; try discriminate Hin);
      try contradiction.
    all: injection Hin as <-; cbn [sender receiver amount].
    all: split; [exact Haddr |]; split; [reflexivity |].
    all: exists price; split; [exact Hprice | rewrite Hprice; reflexivity].
Qed.

(** C2: when the booking call succeeds, [handleBuyTicket] resets [eventId]
    to the empty string, [receiverAddress] to the default address and
    [ticketPrice] to null, calls [closeModal] once and dispatches exactly
    one global event, ['refreshTickets']. *)
Theorem C2_successful_booking_resets_closes_refreshes c w s
    (client : AppClient) (n : JS.number) (txn : Transaction)
    (response : BookingResponse) :
  In (BookTicket client n txn) (trace (handleBuyTicket c w)) ->
  bookTicket w client n txn = Returns response ->
  eventId (apply_trace s (trace (handleBuyTicket c w))) = ""%string
  /\ receiverAddress (apply_trace s (trace (handleBuyTicket c w)))
     = DEFAULT_RECEIVER
  /\ ticketPrice (apply_trace s (trace (handleBuyTicket c w))) = None
  /\ loading (apply_trace s (trace (handleBuyTicket c w))) = false
  /\ count is_CloseModal (trace (handleBuyTicket c w)) = 1
  /\ filter is_DispatchEvent (trace (handleBuyTicket c w))
     = [DispatchEvent "refreshTickets"]
  /\ outcome (handleBuyTicket c w) = Returns tt.
Proof.
  intros Hin HB.
  destruct (booking_arguments c w client n txn Hin) as (Hff & _ & _).
  revert Hin. apply first_failing_none in Hff.
  destruct Hff as (H1 & H2 & H3 & H4).
  run_handler c w; intros Hin;
    repeat (destruct Hin as [Hin | Hin]; try discriminate Hin);
    try contradiction.
  - repeat split; reflexivity.
  - injection Hin as <- <- <-. rewrite Hbook in HB. discriminate.
Qed.

Lemma prefix_refl (m : string) : String.prefix m m = true.
Proof.
  induction m as [| a m IH]; simpl; [reflexivity |].
  destruct (ascii_dec a a); [exact IH | contradiction].
Qed.

Lemma includes_suffix (p m : string) : includes m (p ++ m)%string = true.
Proof.
  induction p as [| a p IH]; simpl.
  - destruct m; simpl; [reflexivity |].
    destruct (ascii_dec a a) as [_ | ne]; [| contradiction].
    rewrite prefix_refl. reflexivity.
  - rewrite IH. apply orb_true_r.
Qed.

(** C3, as amended: when the booking call throws, [handleBuyTicket] leaves
    [eventId], [receiverAddress] and [ticketPrice] as they are, does not
    call [closeModal], dispatches no event and shows exactly one error
    notification; its text is ["Error booking ticket: "] followed by the
    message of the thrown value when that is an [Error] instance (so the
    text contains the message), and by ["Unknown error"] otherwise. *)
Theorem C3_failed_booking_keeps_input_and_notifies c w s
    (client : AppClient) (n : JS.number) (txn : Transaction)
    (e : JS.thrown) :
  In (BookTicket client n txn) (trace (handleBuyTicket c w)) ->
  bookTicket w client n txn = Throws e ->
  eventId (apply_trace s (trace (handleBuyTicket c w))) = eventId s
  /\ receiverAddress (apply_trace s (trace (handleBuyTicket c w)))
     = receiverAddress s
  /\ ticketPrice (apply_trace s (trace (handleBuyTicket c w)))
     = ticketPrice s
  /\ count is_CloseModal (trace (handleBuyTicket c w)) = 0
  /\ count is_DispatchEvent (trace (handleBuyTicket c w)) = 0
  /\ filter is_notification (trace (handleBuyTicket c w))
     = [EnqueueSnackbar
          ("Error booking ticket: " ++ JS.error_message_or "Unknown error" e)
          v_error]
  /\ (forall m, e = JS.ErrorInstance m ->
        includes m ("Error booking ticket: "
                     ++ JS.error_message_or "Unknown error" e) = true)
  /\ outcome (handleBuyTicket c w) = Returns tt.
Proof.
  intros Hin HB.
  assert (Hinc : forall m, e = JS.ErrorInstance m ->
            includes m ("Error booking ticket: "
                         ++ JS.error_message_or "Unknown error" e) = true)
    by (intros m ->; apply includes_suffix).
  revert Hinc.
  generalize (forall m, e = JS.ErrorInstance m ->
                includes m ("Error booking ticket: "
                             ++ JS.error_message_or "Unknown error" e) = true).
  intros P HP.
  destruct (booking_arguments c w client n txn Hin) as (Hff & _ & _).
  revert Hin. apply first_failing_none in Hff.
  destruct Hff as (H1 & H2 & H3 & H4).
  run_handler c w; intros Hin;
    repeat (destruct Hin as [Hin | Hin]; try discriminate Hin);
    try contradiction.
  - injection Hin as <- <- <-. rewrite Hbook in HB. discriminate.
  - injection Hin as <- <- <-. rewrite Hbook in HB. injection HB as <-.
    repeat split; try reflexivity. exact HP.
Qed.

(** C10: every booking call is handed [Number(eventId)], the numeric
    conversion of the raw input string. The validation of [eventId] only
    checks that it is not empty: with a wallet connected the handler
    answers ["Please enter an Event ID"] exactly for the empty string. So
    for every non-empty [eventId], once the other checks pass and the
    steps before it return, the booking call is made with
    [Number(eventId)]; for a string that is not a valid numeral that
    argument is [NaN], which the component does not reject. *)
Theorem C10_booking_call_receives_Number_of_eventId c w :
  (forall client n txn,
     In (BookTicket client n txn) (trace (handleBuyTicket c w)) ->
     n = JS.Number (eventId (cl_state c)))
  /\ (holds c WalletConnected = true ->
      handleBuyTicket c w
      = ([EnqueueSnackbar "Please enter an Event ID" v_error], Returns tt)
      <-> eventId (cl_state c) = ""%string)
  /\ (forall (factory : NftBookingsFactory) (client : AppClient)
             (params : SuggestedParams) (txn : Transaction),
        eventId (cl_state c) <> ""%string ->
        holds c WalletConnected = true ->
        holds c ReceiverPresent = true ->
        holds c PricePositive = true ->
        cl_appFactory c = Some factory ->
        getClient w factory CONFIG_APP_ID = Returns client ->
        getTransactionParams w (cl_algodClient c) = Returns params ->
        makePaymentTxn w
          {| sender := address (cl_wallet c);
             receiver := receiverAddress (cl_state c);
             amount :=
               JS.mul (price_number (ticketPrice (cl_state c))) JS.million;
             suggestedParams := params |} = Returns txn ->
        holds c EventIdPresent = true
        /\ first_failing c = None
        /\ In (BookTicket client (JS.Number (eventId (cl_state c))) txn)
             (trace (handleBuyTicket c w))
        /\ (JS.is_numeral (eventId (cl_state c)) = false ->
            In (BookTicket client JS.NaN txn) (trace (handleBuyTicket c w))))
  /\ (JS.is_numeral (eventId (cl_state c)) = false ->
      JS.Number (eventId (cl_state c)) = JS.NaN
      /\ forall client n txn,
           In (BookTicket client n txn) (trace (handleBuyTicket c w)) ->
           n = JS.NaN).
Proof.
  assert (Hnum : forall client n txn,
            In (BookTicket client n txn) (trace (handleBuyTicket c w)) ->
            n = JS.Number (eventId (cl_state c))).
  { intros client n txn Hin.
    destruct (booking_arguments c w client n txn Hin) as (_ & H & _).
    exact H. }
  split; [exact Hnum |]. split; [| split].
  - (* the only identifier the validation turns away is the empty one *)
    intros H1. split.
    + intros Heq.
      destruct (String.eqb_spec (eventId (cl_state c)) "") as [E | E];
        [exact E | exfalso].
      assert (H2 : holds c EventIdPresent = true).
      { simpl. destruct (eventId (cl_state c));
          [contradiction | reflexivity]. }
      destruct (first_failing c) as [p |] eqn:Hff.
      * rewrite (handleBuyTicket_rejects c w p Hff) in Heq.
        injection Heq as Heq.
        apply (rejection_injective p EventIdPresent) in Heq. subst p.
        unfold first_failing in Hff. apply find_some in Hff.
        destruct Hff as [_ Hff]. rewrite H2 in Hff. discriminate.
      * destruct (handleBuyTicket_window c w Hff) as (body & Ht & _).
        rewrite Ht in Heq. discriminate.
    + intros E. apply (handleBuyTicket_rejects c w EventIdPresent).
      unfold first_failing, checking_order. cbn [find].
      rewrite H1. cbn [negb holds]. rewrite E. reflexivity.
  - intros factory client params txn Hne H1 H3 H4 Hfac Hcl Hpar Hmk.
    assert (H2 : holds c EventIdPresent = true).
    { simpl. destruct (eventId (cl_state c)); [contradiction | reflexivity]. }
    assert (Hin : In (BookTicket client (JS.Number (eventId (cl_state c))) txn)
                     (trace (handleBuyTicket c w))).
    { unfold handleBuyTicket, getAppClient.
      rewrite wallet_guard, eventId_guard, receiver_guard, price_guard.
      rewrite H1, H2, H3, H4, Hfac. cbn [negb].
      unfold bind, try_finally, try_catch, call, setLoading, emit, trace.
      cbn [fst snd]. rewrite Hcl, Hpar, Hmk.
      destruct (bookTicket w client (JS.Number (eventId (cl_state c))) txn);
        cbn; do 4 right; left; reflexivity. }
    split; [exact H2 |].
    split; [apply first_failing_none; auto |].
    split; [exact Hin |].
    intros Hnon. rewrite <- (Number_of_non_numeral _ Hnon). exact Hin.
  - intros Hnon. split; [apply Number_of_non_numeral, Hnon |].
    intros client n txn Hin. rewrite (Hnum client n txn Hin).
    apply Number_of_non_numeral, Hnon.
Qed.

(** The handler never throws. *)
Lemma handleBuyTicket_returns c w :
  outcome (handleBuyTicket c w) = Returns tt.
Proof.
  destruct (first_failing c) as [p |] eqn:H.
  - rewrite (handleBuyTicket_rejects c w p H). reflexivity.
  - destruct (handleBuyTicket_window c w H) as (body & -> & _). reflexivity.
Qed.

(** Past the four checks, the first thing the guarded block does with a
    factory at hand is to ask it for the client. *)
Lemma handleBuyTicket_asks_for_client c w (fac : NftBookingsFactory) :
  first_failing c = None ->
  cl_appFactory c = Some fac ->
  exists rest,
    trace (handleBuyTicket c w)
    = SetLoading true :: GetClient fac CONFIG_APP_ID :: rest.
Proof.
  intros H Hfac. apply first_failing_none in H.
  destruct H as (H1 & H2 & H3 & H4). revert Hfac.
  run_handler c w; intros Hfac; try discriminate;
    injection Hfac as <-; eexists; reflexivity.
Qed.

(** A failing booking call shows one notification. *)
Lemma failed_booking_notification c w (client : AppClient) (n : JS.number)
    (txn : Transaction) (e : JS.thrown) :
  In (BookTicket client n txn) (trace (handleBuyTicket c w)) ->
  bookTicket w client n txn = Throws e ->
  exists message,
    filter is_notification (trace (handleBuyTicket c w))
    = [EnqueueSnackbar message v_error].
Proof.
  intros Hin HB.
  destruct (booking_arguments c w client n txn Hin) as (Hff & _ & _).
  revert Hin. apply first_failing_none in Hff.
  destruct Hff as (H1 & H2 & H3 & H4).
  run_handler c w; intros Hin;
    repeat (destruct Hin as [Hin | Hin]; try discriminate Hin);
    try contradiction.
  - injection Hin as <- <- <-. rewrite Hbook in HB. discriminate.
  - eexists. reflexivity.
Qed.

End Submission.

(** ** Error handling across the two functions *)

Section ErrorHandling.

Context {sdk : Sdk}.
Local Open Scope list_scope.

Implicit Types (c : Closure) (w : World) (s : State).

(** C6, as amended: a precondition failure of [handleBuyTicket] (missing
    wallet, missing field, price not positive) shows a warning or error
    notification, as a remote failure of either function does; a
    precondition failure of the price-fetch effect (missing identifier or
    wallet) only resets [ticketPrice] to null and shows no notification;
    neither function lets an exception out. *)
Theorem C6_precondition_failures_notify_on_submit_only c w :
  (forall p, first_failing c = Some p ->
     exists message variant,
       trace (handleBuyTicket c w) = [EnqueueSnackbar message variant]
       /\ variant <> v_success)
  /\ (can_fetch c = false ->
      trace (fetchTicketPrice c w) = [SetTicketPrice None]
      /\ count is_notification (trace (fetchTicketPrice c w)) = 0)
  /\ (forall client n txn e,
        In (BookTicket client n txn) (trace (handleBuyTicket c w)) ->
        bookTicket w client n txn = Throws e ->
        exists message,
          filter is_notification (trace (handleBuyTicket c w))
          = [EnqueueSnackbar message v_error])
  /\ (forall client e,
        In (GetTicketPrice client) (trace (fetchTicketPrice c w)) ->
        getTicketPrice w client = Throws e ->
        exists message,
          filter is_notification (trace (fetchTicketPrice c w))
          = [EnqueueSnackbar message v_error])
  /\ outcome (handleBuyTicket c w) = Returns tt
  /\ outcome (fetchTicketPrice c w) = Returns tt.
Proof.
  split.
  { intros p H. rewrite (handleBuyTicket_rejects c w p H).
    destruct p; simpl; do 2 eexists; (split; [reflexivity | discriminate]). }
  split.
  { intros H. rewrite (fetchTicketPrice_skips c w H). split; reflexivity. }
  split.
  { intros client n txn e. apply failed_booking_notification. }
  split.
  { intros client e Hin Hp.
    destruct (failed_fetch c w initial_state client e Hin Hp) as (_ & _ & H & _).
    eexists. exact H. }
  split; [apply handleBuyTicket_returns | apply fetchTicketPrice_returns].
Qed.

End ErrorHandling.

(** ** The busy flag and the submit button *)

Section BusyFlag.

Context {sdk : Sdk}.
Local Open Scope list_scope.

Implicit Types (c : Closure) (w : World) (s : State).

Lemma loading_during_submission c w s (pre suf : list action) :
  loading s = false ->
  trace (handleBuyTicket c w) = pre ++ suf ->
  loading (apply_trace s pre) = true
  <-> first_failing c = None /\ pre <> [] /\ suf <> [].
Proof.
  intros Hs Heq.
  destruct (first_failing c) as [p |] eqn:Hff.
  - rewrite (handleBuyTicket_rejects c w p Hff) in Heq. simpl in Heq.
    assert (Hpre : loading (apply_trace s pre) = false).
    { destruct pre as [| a pre]; [exact Hs |].
      injection Heq as <- Heq. symmetry in Heq.
      apply app_eq_nil in Heq. destruct Heq as [-> _].
      destruct p; exact Hs. }
    rewrite Hpre. split; [discriminate | intros [H _]; discriminate].
  - destruct (handleBuyTicket_window c w Hff) as (body & Ht & Hbody).
    rewrite Ht in Heq. simpl in Heq.
    rewrite (loading_window body pre suf s Hbody Heq), Hs.
    destruct pre, suf; split; try discriminate;
      try (intros (_ & H1 & H2); congruence);
      intros _; repeat split; discriminate.
Qed.

Lemma loading_after_submission c w s :
  loading s = false ->
  loading (apply_trace s (trace (handleBuyTicket c w))) = false.
Proof.
  intros Hs.
  destruct (loading (apply_trace s (trace (handleBuyTicket c w)))) eqn:E;
    [| reflexivity].
  apply (loading_during_submission c w s _ []) in E;
    [| exact Hs | rewrite app_nil_r; reflexivity].
  destruct E as (_ & _ & H). contradiction.
Qed.

(** No event leaves the flag up once it has run to its end. *)
Lemma step_keeps_idle s (ev : Event) :
  loading s = false -> loading (step s ev) = false.
Proof.
  intros Hs. unfold step. destruct ev as [v | v | c w | c w]; cbn [event_trace].
  - exact Hs.
  - exact Hs.
  - apply loading_after_submission, Hs.
  - rewrite loading_preserved by apply fetch_keeps_loading. exact Hs.
Qed.

Lemma run_keeps_idle (evs : list Event) s :
  loading s = false -> loading (run s evs) = false.
Proof.
  revert s. induction evs as [| ev evs IH]; intros s Hs; [exact Hs |].
  apply IH, step_keeps_idle, Hs.
Qed.

Lemma run_timeline (evs : list Event) s :
  run s evs = apply_trace s (timeline evs).
Proof.
  revert s. induction evs as [| ev evs IH]; intros s; [reflexivity |].
  unfold timeline. cbn [flat_map]. rewrite apply_trace_app.
  apply IH.
Qed.

(** Where the flag is up along a sequence of events: inside a submission
    that passed its preconditions, and nowhere else. *)
Lemma loading_along_timeline (evs : list Event) s (pre suf : list action) :
  loading s = false ->
  timeline evs = pre ++ suf ->
  loading (apply_trace s pre) = true ->
  in_submission evs pre.
Proof.
  revert s pre. induction evs as [| ev evs IH]; intros s pre Hs Heq Hup.
  - symmetry in Heq. apply app_eq_nil in Heq. destruct Heq as [-> _].
    simpl in Hup. congruence.
  - unfold timeline in Heq. cbn [flat_map] in Heq.
    apply app_eq_app in Heq.
    destruct Heq as (l & [[Hev Hsuf] | [Hpre Hrest]]).
    + (* the point lies inside, or at the end of, the first event *)
      destruct l as [| a l].
      * rewrite app_nil_r in Hev. subst pre.
        change (loading (step s ev) = true) in Hup.
        rewrite (step_keeps_idle s ev Hs) in Hup. discriminate.
      * destruct ev as [v | v | c w | c w]; cbn [event_trace] in Hev.
        -- destruct pre as [| b pre]; [simpl in Hup; congruence |].
           injection Hev as _ Hev. destruct pre; discriminate.
        -- destruct pre as [| b pre]; [simpl in Hup; congruence |].
           injection Hev as _ Hev. destruct pre; discriminate.
        -- apply (loading_during_submission c w s pre (a :: l) Hs Hev) in Hup.
           destruct Hup as (Hff & Hp & Hq).
           exists [], c, w, evs, pre, (a :: l). repeat split; assumption.
        -- rewrite loading_preserved in Hup; [congruence |].
           apply (forallb_prefix _ pre (a :: l)). rewrite <- Hev.
           apply fetch_keeps_loading.
    + (* the point lies after the first event *)
      subst pre. rewrite apply_trace_app in Hup.
      apply (IH (step s ev) l (step_keeps_idle s ev Hs) Hrest) in Hup.
      destruct Hup as (before & c & w & after & p & q & -> & -> & Ht & Hp & Hq & Hff).
      exists (ev :: before), c, w, after, p, q.
      repeat split; try assumption.
      unfold timeline. cbn [flat_map]. rewrite app_assoc. reflexivity.
Qed.

Lemma loading_in_submission (evs : list Event) (pre : list action) :
  in_submission evs pre ->
  loading (apply_trace initial_state pre) = true.
Proof.
  intros (before & c & w & after & p & q & -> & -> & Ht & Hp & Hq & Hff).
  rewrite apply_trace_app, <- run_timeline.
  apply (loading_during_submission c w _ p q).
  - apply run_keeps_idle. reflexivity.
  - exact Ht.
  - repeat split; assumption.
Qed.

(** [!ticketPrice] holds for null, a zero and NaN, and for nothing else. *)
Lemma falsy_price (p : option JS.number) :
  JS.truthy_opt JS.truthy_number p = false
  <-> p = None \/ p = Some (S754_zero false) \/ p = Some (S754_zero true)
      \/ p = Some JS.NaN.
Proof.
  destruct p as [[[] | [] | | sg m e] |]; simpl; split; intros H;
    try discriminate; try reflexivity; try tauto;
    repeat (destruct H as [H | H]; try discriminate H).
Qed.

(** C8, as amended: along every sequence of events of a mounted dialog,
    [loading] is true exactly at the points inside a submission that
    passed the four preconditions, after its [setLoading(true)] and before
    the [setLoading(false)] that ends it whether the booking succeeded or
    failed; at every other point it is false. The submit button is
    disabled exactly when [loading] is true or [ticketPrice] is falsy:
    null, zero of either sign, or NaN. *)
Theorem C8_loading_window_and_disabled_button :
  (forall (evs : list Event) (pre suf : list action),
     timeline evs = pre ++ suf ->
     loading (apply_trace initial_state pre) = true <-> in_submission evs pre)
  /\ (forall c w s (pre suf : list action),
        loading s = false ->
        trace (handleBuyTicket c w) = pre ++ suf ->
        loading (apply_trace s pre) = true
        <-> first_failing c = None /\ pre <> [] /\ suf <> [])
  /\ (forall s,
        submit_disabled s = true
        <-> loading s = true
            \/ ticketPrice s = None
            \/ ticketPrice s = Some (S754_zero false)
            \/ ticketPrice s = Some (S754_zero true)
            \/ ticketPrice s = Some JS.NaN).
Proof.
  split.
  { intros evs pre suf Heq. split.
    - apply (loading_along_timeline evs initial_state pre suf);
        [reflexivity | exact Heq].
    - apply loading_in_submission. }
  split; [apply loading_during_submission |].
  intros s. unfold submit_disabled.
  rewrite orb_true_iff, negb_true_iff, falsy_price. reflexivity.
Qed.

End BusyFlag.

(** ** Renders, the factory and the effect *)

Section Renders.

Context {sdk : Sdk}.
Local Open Scope list_scope.

Implicit Types (c : Closure) (w : World) (s : State).

(** C9: in every render the factory is null exactly when the address or
    the signer is missing; so once the wallet check of [handleBuyTicket]
    has passed, [getAppClient] does not throw its
    ['Wallet not connected or factory not initialized'] error but asks the
    factory for the client. *)
Theorem C9_wallet_check_rules_out_missing_factory (h : Hooks) (i : Inputs)
    w :
  rendered h i ->
  (memo_value (hk_appFactory h) = None
   <-> has_address (in_wallet i) && has_signer (in_wallet i) = false)
  /\ (holds (closure_of h i) WalletConnected = true ->
      exists factory,
        cl_appFactory (closure_of h i) = Some factory
        /\ getAppClient (closure_of h i) w
           = call (GetClient factory CONFIG_APP_ID)
               (getClient w factory CONFIG_APP_ID)
        /\ (first_failing (closure_of h i) = None ->
            exists rest,
              trace (handleBuyTicket (closure_of h i) w)
              = SetLoading true :: GetClient factory CONFIG_APP_ID :: rest)).
Proof.
  intros Hr. apply rendered_ok in Hr.
  destruct (appFactory_null_iff h i Hr) as [Hcl Hnull].
  split; [exact Hnull |].
  intros Hw. change (has_address (in_wallet i) && has_signer (in_wallet i) = true) in Hw.
  destruct (memo_value (hk_appFactory h)) as [factory |].
  - exists factory. split; [exact Hcl |]. split.
    + unfold getAppClient. rewrite Hcl. reflexivity.
    + intros Hff. apply handleBuyTicket_asks_for_client; assumption.
  - rewrite (proj1 Hnull eq_refl) in Hw. discriminate.
Qed.

(** C7, as amended: when the remote read of the price throws, the effect
    sets [ticketPrice] to null and shows one error notification, without a
    second attempt; the fetch runs again after a render in which one of
    the dependencies of the effect changed: [eventId], the wallet address
    or signer, the [enqueueSnackbar] function, or, while a wallet is
    connected, the algod configuration object, which replaces the
    [getAppClient] callback. *)
Theorem C7_failed_fetch_clears_price_without_retry c w s
    (client : AppClient) (e : JS.thrown) :
  In (GetTicketPrice client) (trace (fetchTicketPrice c w)) ->
  getTicketPrice w client = Throws e ->
  ticketPrice (apply_trace s (trace (fetchTicketPrice c w))) = None
  /\ filter is_notification (trace (fetchTicketPrice c w))
     = [EnqueueSnackbar
          (JS.error_message_or "Unable to fetch ticket price" e) v_error]
  /\ filter is_GetTicketPrice (trace (fetchTicketPrice c w))
     = [GetTicketPrice client]
  /\ forall (h : Hooks) (i0 i : Inputs),
       rendered h i0 ->
       snd (render (Some h) i) = true
       <-> (eventId (in_state i) <> eventId (in_state i0)
            \/ activeAddress (in_wallet i) <> activeAddress (in_wallet i0)
            \/ transactionSigner (in_wallet i)
               <> transactionSigner (in_wallet i0)
            \/ in_enqueueSnackbar i <> in_enqueueSnackbar i0
            \/ (in_algodConfig i <> in_algodConfig i0
                /\ has_address (in_wallet i) && has_signer (in_wallet i)
                   = true)).
Proof.
  intros Hin Hp.
  destruct (failed_fetch c w s client e Hin Hp) as (H1 & _ & H2 & H3).
  split; [exact H1 |]. split; [exact H2 |]. split; [exact H3 |].
  intros h i0 i Hr. apply effect_runs_again, rendered_ok, Hr.
Qed.

End Renders.

(** ** Every way through the two functions *)

(** As [run_handler] and [run_fetch], keeping how each call ended. *)
Ltac walk_handler c w :=
  unfold handleBuyTicket, getAppClient;
  rewrite ?wallet_guard, ?eventId_guard, ?receiver_guard, ?price_guard;
  repeat match goal with
         | H : holds c _ = true |- _ => rewrite H
         end;
  cbn [negb];
  destruct (cl_appFactory c) as [factory |] eqn:Hfactory; cbn;
  [ destruct (getClient w factory CONFIG_APP_ID) as [client' | e1]
      eqn:Hclient; cbn;
    [ destruct (getTransactionParams w (cl_algodClient c)) as [params | e2]
        eqn:Hparams; cbn;
      [ match goal with
        | |- context [makePaymentTxn w ?p] =>
            destruct (makePaymentTxn w p) as [txn' | e3] eqn:Hmake; cbn;
            [ match goal with
              | |- context [bookTicket w ?a ?b ?t] =>
                  destruct (bookTicket w a b t) as [resp | e4] eqn:Hbook;
                  cbn
              end
            | ]
        end
      | ]
    | ]
  | ].

Ltac walk_fetch c w :=
  unfold fetchTicketPrice, getAppClient;
  rewrite ?fetch_guard;
  repeat match goal with
         | H : can_fetch c = true |- _ => rewrite H
         end;
  cbn [negb];
  destruct (cl_appFactory c) as [factory |] eqn:Hfactory; cbn;
  [ destruct (getClient w factory CONFIG_APP_ID) as [client' | e1]
      eqn:Hclient; cbn;
    [ destruct (getTicketPrice w client') as [price | e2] eqn:Hprice; cbn
    | ]
  | ].

Section Paths.

Context {sdk : Sdk}.
Local Open Scope list_scope.

Implicit Types (c : Closure) (w : World) (s : State).

(** X1: a submission is all or nothing. It shows exactly one
    notification. Either that is the success message with the response of
    a booking call that returned, and the dialog is closed once and one
    ['refreshTickets'] event dispatched; or it is a warning or an error,
    the dialog is not closed, no event is dispatched, the three input
    cells keep their values and no booking call returned. *)
Theorem X1_submission_is_all_or_nothing c w :
  exists message variant,
    filter is_notification (trace (handleBuyTicket c w))
    = [EnqueueSnackbar message variant]
    /\ ((variant = v_success
         /\ (exists client n txn r,
               In (BookTicket client n txn) (trace (handleBuyTicket c w))
               /\ bookTicket w client n txn = Returns r
               /\ message
                  = ("Ticket booked successfully! Ticket ID: "
                     ++ response_text r)%string)
         /\ count is_CloseModal (trace (handleBuyTicket c w)) = 1
         /\ filter is_DispatchEvent (trace (handleBuyTicket c w))
            = [DispatchEvent "refreshTickets"])
        \/ (variant <> v_success
            /\ count is_CloseModal (trace (handleBuyTicket c w)) = 0
            /\ count is_DispatchEvent (trace (handleBuyTicket c w)) = 0
            /\ (forall s,
                  eventId (apply_trace s (trace (handleBuyTicket c w)))
                  = eventId s
                  /\ receiverAddress
                       (apply_trace s (trace (handleBuyTicket c w)))
                     = receiverAddress s
                  /\ ticketPrice
                       (apply_trace s (trace (handleBuyTicket c w)))
                     = ticketPrice s)
            /\ (forall client n txn r,
                  In (BookTicket client n txn) (trace (handleBuyTicket c w)) ->
                  bookTicket w client n txn <> Returns r))).
Proof.
  destruct (first_failing c) as [p |] eqn:Hff.
  - rewrite (handleBuyTicket_rejects c w p Hff).
    destruct p; do 2 eexists; (split; [reflexivity |]); right;
      (split; [discriminate |]); repeat split; try reflexivity;
      intros client n txn r [H | []]; discriminate.
  - apply first_failing_none in Hff. destruct Hff as (H1 & H2 & H3 & H4).
    run_handler c w; do 2 eexists; (split; [reflexivity |]).
    + left. split; [reflexivity |]. split; [| split; reflexivity].
      do 4 eexists. split; [do 4 right; left; reflexivity |].
      split; [exact Hbook | reflexivity].
    + right. split; [discriminate |]. repeat split; try reflexivity.
      intros client n txn r Hin.
      repeat (destruct Hin as [Hin | Hin]; try discriminate Hin);
        try contradiction.
      injection Hin as <- <- <-. rewrite Hbook. discriminate.
    + right. split; [discriminate |]. repeat split; try reflexivity.
      intros client n txn r Hin.
      repeat (destruct Hin as [Hin | Hin]; try discriminate Hin);
        contradiction.
    + right. split; [discriminate |]. repeat split; try reflexivity.
      intros client n txn r Hin.
      repeat (destruct Hin as [Hin | Hin]; try discriminate Hin);
        contradiction.
    + right. split; [discriminate |]. repeat split; try reflexivity.
      intros client n txn r Hin.
      repeat (destruct Hin as [Hin | Hin]; try discriminate Hin);
        contradiction.
    + right. split; [discriminate |]. repeat split; try reflexivity.
      intros client n txn r Hin.
      repeat (destruct Hin as [Hin | Hin]; try discriminate Hin);
        contradiction.
Qed.

(** X2: the SDK calls of a submission are an initial part of the
    sequence [getClient], [getTransactionParams], [makePaymentTxn],
    [bookTicket], and those of a price fetch an initial part of
    [getClient], [getTicketPrice]: each call is made at most once, in that
    order, and none at all when a precondition of the function fails. *)
Theorem X2_sdk_calls_in_order_at_most_once c w :
  (exists n,
     sdk_calls (trace (handleBuyTicket c w))
     = firstn n [call_getClient; call_getTransactionParams;
                 call_makePaymentTxn; call_bookTicket])
  /\ (first_failing c <> None -> sdk_calls (trace (handleBuyTicket c w)) = [])
  /\ (exists n,
        sdk_calls (trace (fetchTicketPrice c w))
        = firstn n [call_getClient; call_getTicketPrice])
  /\ (can_fetch c = false -> sdk_calls (trace (fetchTicketPrice c w)) = []).
Proof.
  split; [| split; [| split]].
  - destruct (first_failing c) as [p |] eqn:Hff.
    + rewrite (handleBuyTicket_rejects c w p Hff). exists 0.
      destruct p; reflexivity.
    + apply first_failing_none in Hff. destruct Hff as (H1 & H2 & H3 & H4).
      run_handler c w;
        [exists 4 | exists 4 | exists 3 | exists 2 | exists 1 | exists 0];
        reflexivity.
  - destruct (first_failing c) as [p |] eqn:Hff; [| congruence].
    intros _. rewrite (handleBuyTicket_rejects c w p Hff).
    destruct p; reflexivity.
  - destruct (can_fetch c) eqn:Hg.
    + run_fetch c w; [exists 2 | exists 2 | exists 1 | exists 0]; reflexivity.
    + rewrite (fetchTicketPrice_skips c w Hg). exists 0. reflexivity.
  - intros Hg. rewrite (fetchTicketPrice_skips c w Hg). reflexivity.
Qed.

(** X3: when a submission passes the four checks but never reaches the
    booking call, one of the earlier steps threw (the missing-factory
    error of [getAppClient], [getClient], [getTransactionParams] or
    [makePaymentTxn]); the handler then shows exactly one error
    notification, ["Error booking ticket: "] followed by the message of
    what was thrown or ["Unknown error"], sets nothing but the busy flag
    (up, then down), keeps the dialog open and dispatches no event. *)
Theorem X3_failure_before_the_booking_call c w :
  first_failing c = None ->
  count is_BookTicket (trace (handleBuyTicket c w)) = 0 ->
  exists e,
    ((cl_appFactory c = None
      /\ e = JS.ErrorInstance "Wallet not connected or factory not initialized")
     \/ (exists appFactory,
           cl_appFactory c = Some appFactory
           /\ getClient w appFactory CONFIG_APP_ID = Throws e)
     \/ getTransactionParams w (cl_algodClient c) = Throws e
     \/ (exists pay,
           In (MakePaymentTxn pay) (trace (handleBuyTicket c w))
           /\ makePaymentTxn w pay = Throws e))
    /\ filter is_notification (trace (handleBuyTicket c w))
       = [EnqueueSnackbar
            ("Error booking ticket: " ++ JS.error_message_or "Unknown error" e)
            v_error]
    /\ filter is_setter (trace (handleBuyTicket c w))
       = [SetLoading true; SetLoading false]
    /\ count is_CloseModal (trace (handleBuyTicket c w)) = 0
    /\ count is_DispatchEvent (trace (handleBuyTicket c w)) = 0.
Proof.
  intros Hff. apply first_failing_none in Hff.
  destruct Hff as (H1 & H2 & H3 & H4).
  walk_handler c w; intros Hcount; try discriminate Hcount.
  - exists e3. split; [| repeat split; reflexivity].
    do 3 right. eexists. split; [| exact Hmake].
    do 3 right. left. reflexivity.
  - exists e2. split; [| repeat split; reflexivity].
    do 2 right. left. reflexivity.
  - exists e1. split; [| repeat split; reflexivity].
    right. left. exists factory. split; [reflexivity | exact Hclient].
  - eexists. split; [left; split; reflexivity | repeat split; reflexivity].
Qed.

Lemma connected_address c :
  holds c WalletConnected = true ->
  exists a, activeAddress (cl_wallet c) = Some a /\ a <> ""%string.
Proof.
  simpl. unfold has_address. intros H. apply andb_prop in H.
  destruct H as [H _].
  destruct (activeAddress (cl_wallet c)) as [a |]; [| discriminate].
  exists a. split; [reflexivity |]. apply truthy_string_true_iff, H.
Qed.

Lemma positive_price c :
  holds c PricePositive = true ->
  exists price,
    ticketPrice (cl_state c) = Some price
    /\ JS.ltb (JS.of_Z 0) price = true.
Proof.
  simpl. destruct (ticketPrice (cl_state c)) as [x |]; [| discriminate].
  intros H. exists x. split; [reflexivity | exact H].
Qed.

(** X4: where the arguments of a booking call come from. The call is made
    on the client the factory of this render returned, with
    [Number(eventId)] and the transaction [makePaymentTxn] built from the
    payment of [ticketPrice * 1_000_000], for a positive [ticketPrice],
    from the connected, non-empty wallet address to the entered, non-empty
    receiver address, under the parameters [getTransactionParams]
    returned. *)
Theorem X4_booking_call_provenance c w (client : AppClient) (n : JS.number)
    (txn : Transaction) :
  In (BookTicket client n txn) (trace (handleBuyTicket c w)) ->
  n = JS.Number (eventId (cl_state c))
  /\ exists appFactory params a price,
       cl_appFactory c = Some appFactory
       /\ getClient w appFactory CONFIG_APP_ID = Returns client
       /\ getTransactionParams w (cl_algodClient c) = Returns params
       /\ activeAddress (cl_wallet c) = Some a
       /\ a <> ""%string
       /\ receiverAddress (cl_state c) <> ""%string
       /\ ticketPrice (cl_state c) = Some price
       /\ JS.ltb (JS.of_Z 0) price = true
       /\ makePaymentTxn w
            {| sender := a;
               receiver := receiverAddress (cl_state c);
               amount := JS.mul price JS.million;
               suggestedParams := params |} = Returns txn.
Proof.
  intros Hin.
  destruct (booking_arguments c w client n txn Hin) as (Hff & Hn & _).
  split; [exact Hn |]. clear Hn.
  apply first_failing_none in Hff. destruct Hff as (H1 & H2 & H3 & H4).
  destruct (connected_address c H1) as (a & Ha & Hane).
  destruct (positive_price c H4) as (price & Hp & Hpos).
  assert (Hrcv : receiverAddress (cl_state c) <> ""%string).
  { simpl in H3. destruct (receiverAddress (cl_state c));
      [discriminate | discriminate]. }
  assert (Hpay : forall params,
            {| sender := address (cl_wallet c);
               receiver := receiverAddress (cl_state c);
               amount := JS.mul (price_number (ticketPrice (cl_state c)))
                           JS.million;
               suggestedParams := params |}
            = {| sender := a;
                 receiver := receiverAddress (cl_state c);
                 amount := JS.mul price JS.million;
                 suggestedParams := params |}).
  { intros params. unfold address. rewrite Ha, Hp. reflexivity. }
  revert Hin.
  walk_handler c w; intros Hin;
    repeat (destruct Hin as [Hin | Hin]; try discriminate Hin);
    try contradiction.
  all: injection Hin as <- <- <-.
  all: exists factory, params, a, price.
  all: repeat (split; [first [reflexivity | assumption] |]).
  all: rewrite <- Hpay; exact Hmake.
Qed.

(** X5: every run of the price-fetch effect calls [setTicketPrice] exactly
    once and no other setter, never closes the dialog and dispatches no
    event. The price it sets is [p / 1_000_000] for a read that returned
    [p], with no notification; it is null without a notification when the
    guard of the effect fails; and otherwise it is null with one console
    error and one error notification carrying the message of what
    [getAppClient], [getClient] or [getTicketPrice] threw, or
    ["Unable to fetch ticket price"]. *)
Theorem X5_fetch_sets_the_price_exactly_once c w :
  exists v,
    filter is_setter (trace (fetchTicketPrice c w)) = [SetTicketPrice v]
    /\ count is_CloseModal (trace (fetchTicketPrice c w)) = 0
    /\ count is_DispatchEvent (trace (fetchTicketPrice c w)) = 0
    /\ ((can_fetch c = false /\ v = None
         /\ count is_notification (trace (fetchTicketPrice c w)) = 0)
        \/ (exists client p,
              In (GetTicketPrice client) (trace (fetchTicketPrice c w))
              /\ getTicketPrice w client = Returns p
              /\ v = Some (JS.div p JS.million)
              /\ count is_notification (trace (fetchTicketPrice c w)) = 0)
        \/ (exists e,
              v = None
              /\ filter is_ConsoleError (trace (fetchTicketPrice c w))
                 = [ConsoleError "Error fetching ticket price:" e]
              /\ filter is_notification (trace (fetchTicketPrice c w))
                 = [EnqueueSnackbar
                      (JS.error_message_or "Unable to fetch ticket price" e)
                      v_error]
              /\ ((cl_appFactory c = None
                   /\ e = JS.ErrorInstance
                            "Wallet not connected or factory not initialized")
                  \/ (exists appFactory,
                        cl_appFactory c = Some appFactory
                        /\ getClient w appFactory CONFIG_APP_ID = Throws e)
                  \/ (exists client,
                        In (GetTicketPrice client)
                          (trace (fetchTicketPrice c w))
                        /\ getTicketPrice w client = Throws e)))).
Proof.
  destruct (can_fetch c) eqn:Hg.
  - walk_fetch c w; eexists; (split; [reflexivity |]);
      (split; [reflexivity |]); (split; [reflexivity |]).
    + right. left. exists client', price.
      split; [right; left; reflexivity |].
      split; [exact Hprice |]. split; reflexivity.
    + right. right. exists e2. repeat (split; [reflexivity |]).
      right. right. exists client'.
      split; [right; left; reflexivity | exact Hprice].
    + right. right. exists e1. repeat (split; [reflexivity |]).
      right. left. exists factory. split; [reflexivity | exact Hclient].
    + right. right. eexists. repeat (split; [reflexivity |]).
      left. split; reflexivity.
  - rewrite (fetchTicketPrice_skips c w Hg). exists None.
    repeat (split; [reflexivity |]). left. repeat split; reflexivity.
Qed.

(** X6: the price read is not keyed on the identifier. [getTicketPrice()]
    is called without an argument, so two runs of the effect under the
    same wallet and factory, for any two non-empty identifiers, make the
    same calls and set the same price. *)
Theorem X6_fetch_ignores_which_identifier c c' w :
  cl_wallet c = cl_wallet c' ->
  cl_appFactory c = cl_appFactory c' ->
  eventId (cl_state c) <> ""%string ->
  eventId (cl_state c') <> ""%string ->
  fetchTicketPrice c w = fetchTicketPrice c' w.
Proof.
  intros Hw Hf He He'.
  unfold fetchTicketPrice, getAppClient.
  rewrite <- Hw, <- Hf.
  apply truthy_string_true_iff in He, He'. rewrite He, He'.
  reflexivity.
Qed.

(** After a booking that went through, the state is the initial one. *)
Lemma state_after_successful_booking c w s (client : AppClient)
    (n : JS.number) (txn : Transaction) (r : BookingResponse) :
  In (BookTicket client n txn) (trace (handleBuyTicket c w)) ->
  bookTicket w client n txn = Returns r ->
  apply_trace s (trace (handleBuyTicket c w)) = initial_state.
Proof.
  intros Hin HB.
  destruct (booking_arguments c w client n txn Hin) as (Hff & _ & _).
  revert Hin. apply first_failing_none in Hff.
  destruct Hff as (H1 & H2 & H3 & H4).
  run_handler c w; intros Hin;
    repeat (destruct Hin as [Hin | Hin]; try discriminate Hin);
    try contradiction.
  - reflexivity.
  - injection Hin as <- <- <-. rewrite Hbook in HB. discriminate.
Qed.

(** X9: a fetched price carries over to the submission. After a price
    fetch that returned [p] with [0 < p / 1_000_000], started for the
    identifier on screen, a click in the render that follows, under the
    same wallet, passes the wallet, identifier and price checks: it is
    rejected only for an empty receiver address. *)
Theorem X9_submission_after_a_successful_fetch c w s (client : AppClient)
    (p : JS.number) c' :
  In (GetTicketPrice client) (trace (fetchTicketPrice c w)) ->
  getTicketPrice w client = Returns p ->
  JS.ltb (JS.of_Z 0) (JS.div p JS.million) = true ->
  eventId s = eventId (cl_state c) ->
  cl_state c' = apply_trace s (trace (fetchTicketPrice c w)) ->
  cl_wallet c' = cl_wallet c ->
  first_failing c'
  = if String.eqb (receiverAddress s) "" then Some ReceiverPresent else None.
Proof.
  intros Hin Hp Hpos Hid Hst Hw.
  pose proof (price_call_made c w client Hin) as Hg.
  assert (Hstate : apply_trace s (trace (fetchTicketPrice c w))
                   = {| eventId := eventId s;
                        receiverAddress := receiverAddress s;
                        loading := loading s;
                        ticketPrice := Some (JS.div p JS.million) |}).
  { revert Hin. change JS.million with (JS.of_Z 1000000).
    run_fetch c w; intros Hin;
      repeat (destruct Hin as [Hin | Hin]; try discriminate Hin);
      try contradiction.
    - injection Hin as <-. rewrite Hprice in Hp. injection Hp as <-.
      reflexivity.
    - injection Hin as <-. rewrite Hprice in Hp. discriminate. }
  unfold can_fetch in Hg. apply andb_prop in Hg. destruct Hg as [Hg Hsg].
  apply andb_prop in Hg. destruct Hg as [Hev Had].
  unfold first_failing, checking_order. cbn [find holds].
  rewrite Hst, Hstate, Hw. cbn [eventId receiverAddress ticketPrice].
  rewrite Had, Hsg, Hid, Hev, Hpos. cbn [andb negb].
  destruct (String.eqb (receiverAddress s) ""); reflexivity.
Qed.

(** X10: no second booking from the dialog that just booked. After a
    booking that went through the state is the initial one again, the
    submit button is disabled, and a click in a render of that state
    makes no SDK call: with a wallet connected it is answered by
    ["Please enter an Event ID"]. *)
Theorem X10_click_after_a_successful_booking c w s (client : AppClient)
    (n : JS.number) (txn : Transaction) (r : BookingResponse) c' w' :
  In (BookTicket client n txn) (trace (handleBuyTicket c w)) ->
  bookTicket w client n txn = Returns r ->
  cl_state c' = apply_trace s (trace (handleBuyTicket c w)) ->
  cl_state c' = initial_state
  /\ submit_disabled (cl_state c') = true
  /\ sdk_calls (trace (handleBuyTicket c' w')) = []
  /\ (holds c' WalletConnected = true ->
      handleBuyTicket c' w'
      = ([EnqueueSnackbar "Please enter an Event ID" v_error], Returns tt)).
Proof.
  intros Hin HB Hst.
  rewrite (state_after_successful_booking c w s client n txn r Hin HB) in Hst.
  split; [exact Hst |]. split; [rewrite Hst; reflexivity |].
  assert (Hff : first_failing c'
                = if holds c' WalletConnected then Some EventIdPresent
                  else Some WalletConnected).
  { unfold first_failing, checking_order. cbn [find].
    destruct (holds c' WalletConnected); cbn [negb]; [| reflexivity].
    cbn [holds]. rewrite Hst. reflexivity. }
  split.
  - destruct (holds c' WalletConnected);
      rewrite (handleBuyTicket_rejects c' w' _ Hff); reflexivity.
  - intros Hw. rewrite Hw in Hff.
    apply (handleBuyTicket_rejects c' w' _ Hff).
Qed.

End Paths.

(** ** The objects a render hands to its handlers *)

Section HookObjects.

Context {sdk : Sdk}.

(** X7: no stale factory. In every render of a mounted component, the
    factory the handlers of that render call [getClient] on was built for
    the address and the signer of the wallet of that render, on the algod
    client of that render, with [CONFIG.IS_DEVELOPMENT]. *)
Theorem X7_factory_is_built_for_the_current_wallet (h : Hooks) (i : Inputs)
    (f : NftBookingsFactory) :
  rendered h i ->
  cl_appFactory (closure_of h i) = Some f ->
  activeAddress (in_wallet i) = Some (fac_address f)
  /\ transactionSigner (in_wallet i) = Some (fac_signer f)
  /\ fac_algodClient f = cl_algodClient (closure_of h i)
  /\ fac_isDevelopment f = CONFIG_IS_DEVELOPMENT.
Proof.
  intros Hr Hf. apply rendered_ok in Hr.
  destruct Hr as (_ & _ & _ & (id0 & _ & Hfv) & _ & Hgv & _ & _).
  unfold closure_of in Hf. cbn [cl_appFactory] in Hf.
  rewrite Hgv, Hfv in Hf. cbn [closure_of cl_algodClient].
  destruct (has_address (in_wallet i) && has_signer (in_wallet i)) eqn:Hc.
  - destruct (create_appFactory_connected id0
                (memo_value (hk_algodClient h)) (in_wallet i) Hc)
      as (a & sg & Ha & Hs & Hcreate).
    rewrite Hcreate in Hf. injection Hf as <-.
    cbn [fac_address fac_signer fac_algodClient fac_isDevelopment].
    auto.
  - rewrite (create_appFactory_disconnected _ _ _ Hc) in Hf. discriminate.
Qed.

(** X8: what a re-render keeps and what it replaces. When the algod
    configuration object, the address and the signer are those of the
    previous render, the algod client, the factory and the [getAppClient]
    callback are the previous objects. When one of the three changed and a
    wallet is connected, the factory and the callback are objects that did
    not exist before. *)
Theorem X8_memoised_objects_across_renders (h : Hooks) (i0 i : Inputs) :
  rendered h i0 ->
  (in_algodConfig i = in_algodConfig i0 ->
   activeAddress (in_wallet i) = activeAddress (in_wallet i0) ->
   transactionSigner (in_wallet i) = transactionSigner (in_wallet i0) ->
   hk_algodClient (fst (render (Some h) i)) = hk_algodClient h
   /\ hk_appFactory (fst (render (Some h) i)) = hk_appFactory h
   /\ hk_getAppClient (fst (render (Some h) i)) = hk_getAppClient h)
  /\ (has_address (in_wallet i) && has_signer (in_wallet i) = true ->
      in_algodConfig i <> in_algodConfig i0
      \/ activeAddress (in_wallet i) <> activeAddress (in_wallet i0)
      \/ transactionSigner (in_wallet i) <> transactionSigner (in_wallet i0) ->
      exists f,
        memo_value (hk_appFactory (fst (render (Some h) i))) = Some f
        /\ snd (memo_value (hk_getAppClient (fst (render (Some h) i))))
           = Some f
        /\ hk_next h <= fac_id f
        /\ hk_next h
           <= fst (memo_value (hk_getAppClient (fst (render (Some h) i))))).
Proof.
  intros Hr. apply rendered_ok in Hr.
  destruct Hr as (Hcd & Hcv & Hfd & (id0 & Hid0 & Hfv) & Hgd & Hgv & Hgi & He).
  split.
  - intros Hc Ha Hs.
    unfold render.
    cbn [option_map fst hk_algodClient hk_appFactory hk_getAppClient].
    rewrite (useMemo_kept Nat.eqb)
      by (apply Nat.eqb_eq; congruence).
    rewrite (useMemo_kept same_factory_deps)
      by (apply same_factory_deps_eq; rewrite Hfd, Ha, Hs; reflexivity).
    rewrite (useMemo_kept (same_opt Nat.eqb))
      by (apply same_opt_ref; exact Hgd).
    auto.
  - intros Hconn Hchg.
    unfold render.
    cbn [option_map fst hk_algodClient hk_appFactory hk_getAppClient].
    set (client := useMemo Nat.eqb (Some (hk_algodClient h))
                     (in_algodConfig i) (fun _ => hk_next h)).
    assert (Hclient : (in_algodConfig i = in_algodConfig i0
                       /\ memo_value client = memo_value (hk_algodClient h))
                      \/ (in_algodConfig i <> in_algodConfig i0
                          /\ memo_value client = hk_next h)).
    { subst client.
      destruct (Nat.eqb_spec (memo_deps (hk_algodClient h)) (in_algodConfig i))
        as [E | E].
      - rewrite (useMemo_kept Nat.eqb) by (apply Nat.eqb_eq, E).
        left. split; [congruence | reflexivity].
      - rewrite (useMemo_fresh Nat.eqb) by (apply Nat.eqb_neq, E).
        right. split; [congruence | reflexivity]. }
    rewrite (useMemo_fresh same_factory_deps).
    2:{ apply not_true_iff_false. intros E.
        apply same_factory_deps_eq in E. rewrite Hfd in E.
        injection E as E1 E2 E3.
        destruct Hclient as [[Hc Hv] | [Hc Hv]].
        - destruct Hchg as [H | [H | H]]; congruence.
        - rewrite Hv in E1. lia. }
    cbn [memo_value].
    destruct (create_appFactory_connected (S (hk_next h)) (memo_value client)
                (in_wallet i) Hconn) as (a & sg & _ & _ & Hcreate).
    rewrite Hcreate.
    rewrite (useMemo_fresh (same_opt Nat.eqb)).
    2:{ apply not_true_iff_false. intros E. apply same_opt_ref in E.
        rewrite Hgd, Hfv, create_appFactory_id in E. cbn in E.
        destruct (has_address (in_wallet i0) && has_signer (in_wallet i0));
          [injection E as E; lia | discriminate]. }
    cbn [memo_value fst snd].
    eexists. split; [reflexivity |]. split; [reflexivity |].
    cbn [fac_id]. split; lia.
Qed.

End HookObjects.

(** ** Identifiers and [Number] *)

Section Identifiers.

Local Open Scope Z_scope.
Local Open Scope list_scope.

Lemma digit_code (c : ascii) :
  is_decimal_digit c = true -> 48 <= JS.code c <= 57.
Proof. unfold is_decimal_digit. lia. Qed.

Lemma digit_of_decimal (c : ascii) :
  is_decimal_digit c = true -> JS.digit_of 10 c = Some (JS.code c - 48).
Proof.
  intros H. apply digit_code in H. unfold JS.digit_of.
  replace ((48 <=? JS.code c) && (JS.code c <=? 57))%bool with true
    by (symmetry; apply andb_true_intro; split; lia).
  replace (JS.code c - 48 <? 10) with true by (symmetry; lia).
  reflexivity.
Qed.

Lemma digit_is_not_white (c : ascii) :
  is_decimal_digit c = true -> JS.is_StrWhiteSpaceChar c = false.
Proof.
  intros H. apply digit_code in H. unfold JS.is_StrWhiteSpaceChar.
  repeat (apply orb_false_intro); lia.
Qed.

Lemma span_digits_all (l : list ascii) :
  forallb is_decimal_digit l = true ->
  JS.span_digits 10 l = (map (fun c => JS.code c - 48) l, []).
Proof.
  induction l as [| c l IH]; simpl; [reflexivity |].
  intros H. apply andb_prop in H. destruct H as [Hc Hl].
  rewrite (digit_of_decimal c Hc), (IH Hl). reflexivity.
Qed.

Lemma MV_of_map (f : ascii -> Z) (l : list ascii) (acc : Z) :
  fold_left (fun a d => a * 10 + d) (map f l) acc
  = fold_left (fun a c => a * 10 + f c) l acc.
Proof.
  revert acc. induction l as [| c l IH]; intros acc; simpl;
    [reflexivity | apply IH].
Qed.

Lemma fold_digits_nonneg (l : list ascii) (acc : Z) :
  forallb is_decimal_digit l = true -> 0 <= acc ->
  0 <= fold_left (fun a c => a * 10 + (JS.code c - 48)) l acc.
Proof.
  revert acc. induction l as [| c l IH]; intros acc H Hacc; simpl;
    [exact Hacc |].
  simpl in H. apply andb_prop in H. destruct H as [Hc Hl].
  apply digit_code in Hc. apply IH; [exact Hl | lia].
Qed.

Lemma drop_white_digits (l : list ascii) :
  forallb is_decimal_digit l = true -> JS.drop_white l = l.
Proof.
  destruct l as [| c l]; simpl; [reflexivity |].
  intros H. apply andb_prop in H. destruct H as [Hc _].
  rewrite (digit_is_not_white c Hc). reflexivity.
Qed.

Lemma forallb_rev {A} (f : A -> bool) (l : list A) :
  forallb f l = true -> forallb f (rev l) = true.
Proof.
  rewrite !forallb_forall. intros H x Hx. apply H, in_rev, Hx.
Qed.

Lemma trim_digits (l : list ascii) :
  forallb is_decimal_digit l = true -> JS.trim l = l.
Proof.
  intros H. unfold JS.trim.
  rewrite (drop_white_digits l H).
  rewrite (drop_white_digits (rev l) (forallb_rev _ _ H)).
  apply rev_involutive.
Qed.

Lemma round_decimal_integer (d : Z) :
  0 <= d -> JS.round_decimal false d 0 = JS.of_Z d.
Proof.
  intros H. unfold JS.round_decimal, JS.of_Z.
  destruct d as [| m | m]; [reflexivity | | lia].
  cbn [Z.leb Z.compare]. rewrite Z.pow_0_r, Z.mul_1_r. reflexivity.
Qed.

Lemma not_Infinity (c : ascii) (l : list ascii) :
  is_decimal_digit c = true ->
  String.eqb (string_of_list_ascii (c :: l)) "Infinity" = false.
Proof.
  intros H. simpl.
  destruct (Ascii.eqb_spec c "I") as [-> | _]; [discriminate H | reflexivity].
Qed.

Lemma parse_non_decimal_digits (l : list ascii) :
  forallb is_decimal_digit l = true -> JS.parse_non_decimal l = None.
Proof.
  destruct l as [| z [| b r]]; try reflexivity.
  simpl. intros H. apply andb_prop in H. destruct H as [_ H].
  apply andb_prop in H. destruct H as [Hb _]. apply digit_code in Hb.
  destruct (JS.code z =? 48); [| reflexivity].
  replace (JS.code b =? 120) with false by (symmetry; lia).
  replace (JS.code b =? 88) with false by (symmetry; lia).
  replace (JS.code b =? 111) with false by (symmetry; lia).
  replace (JS.code b =? 79) with false by (symmetry; lia).
  replace (JS.code b =? 98) with false by (symmetry; lia).
  replace (JS.code b =? 66) with false by (symmetry; lia).
  reflexivity.
Qed.

(** [Number] on a string of decimal digits is the integer it denotes,
    rounded to the nearest number. *)
Lemma Number_of_digits (s : string) :
  s <> ""%string ->
  all_chars is_decimal_digit s = true ->
  JS.Number s = JS.of_Z (decimal_value s).
Proof.
  unfold all_chars, decimal_value, JS.Number, JS.StringToNumber.
  intros Hne Hall.
  remember (list_ascii_of_string s) as l eqn:Hl.
  assert (Hnil : l <> []).
  { intros ->. apply Hne. rewrite <- (string_of_list_ascii_of_string s), <- Hl.
    reflexivity. }
  clear Hl Hne. rewrite (trim_digits l Hall).
  destruct l as [| c r]; [contradiction |].
  unfold JS.parse_numeric.
  rewrite (parse_non_decimal_digits _ Hall).
  pose proof Hall as Hc. simpl in Hc. apply andb_prop in Hc.
  destruct Hc as [Hc _]. pose proof (digit_code c Hc) as Hcode.
  replace (JS.code c =? 43) with false by (symmetry; lia).
  replace (JS.code c =? 45) with false by (symmetry; lia).
  unfold JS.parse_unsigned_decimal.
  rewrite (not_Infinity c r Hc), (span_digits_all _ Hall).
  rewrite length_map. cbn [List.length Nat.add Nat.eqb negb JS.parse_exponent].
  rewrite app_nil_r, Z.sub_0_r.
  unfold JS.MV. rewrite MV_of_map.
  apply round_decimal_integer, fold_digits_nonneg; [exact Hall | lia].
Qed.

Lemma drop_white_blank (l : list ascii) :
  forallb JS.is_StrWhiteSpaceChar l = true -> JS.drop_white l = [].
Proof.
  induction l as [| c l IH]; simpl; [reflexivity |].
  intros H. apply andb_prop in H. destruct H as [Hc Hl].
  rewrite Hc. apply IH, Hl.
Qed.

(** [Number] on white space alone is [+0]. *)
Lemma Number_of_blank (s : string) :
  all_chars JS.is_StrWhiteSpaceChar s = true -> JS.Number s = JS.of_Z 0.
Proof.
  unfold all_chars, JS.Number, JS.StringToNumber, JS.trim. intros H.
  rewrite (drop_white_blank _ H). reflexivity.
Qed.

Context {sdk : Sdk}.

Implicit Types (c : Closure) (w : World).

(** X11: an identifier typed in decimal digits is booked as the integer it
    denotes. For a non-empty [eventId] made of the characters [0] to [9],
    the first argument of the booking call is that integer, rounded to the
    nearest number. *)
Theorem X11_digit_identifier_is_booked_as_its_value c w
    (client : AppClient) (n : JS.number) (txn : Transaction) :
  eventId (cl_state c) <> ""%string ->
  all_chars is_decimal_digit (eventId (cl_state c)) = true ->
  In (BookTicket client n txn) (trace (handleBuyTicket c w)) ->
  n = JS.of_Z (decimal_value (eventId (cl_state c))).
Proof.
  intros Hne Hall Hin.
  destruct (booking_arguments c w client n txn Hin) as (_ & -> & _).
  apply Number_of_digits; assumption.
Qed.

(** X12: a blank identifier books event 0. An [eventId] that is not empty
    but holds white space only passes the check of the handler, which
    tests for the empty string, and the booking call gets [+0]. *)
Theorem X12_blank_identifier_is_booked_as_zero c w
    (client : AppClient) (n : JS.number) (txn : Transaction) :
  eventId (cl_state c) <> ""%string ->
  all_chars JS.is_StrWhiteSpaceChar (eventId (cl_state c)) = true ->
  holds c EventIdPresent = true
  /\ (In (BookTicket client n txn) (trace (handleBuyTicket c w)) ->
      n = S754_zero false).
Proof.
  intros Hne Hall. split.
  - simpl. destruct (eventId (cl_state c)); [contradiction | reflexivity].
  - intros Hin.
    destruct (booking_arguments c w client n txn Hin) as (_ & -> & _).
    apply (Number_of_blank _ Hall).
Qed.

End Identifiers.

(** ** What the dialog shows *)

Section Shown.

Context {sdk : Sdk}.

Implicit Types (c : Closure) (s : State).

(** A truthy number that is not positive is negative. *)
Lemma truthy_not_positive (x : JS.number) :
  JS.truthy_number x = true ->
  JS.ltb (JS.of_Z 0) x = negb (JS.ltb x (JS.of_Z 0)).
Proof. destruct x as [sg | [] | | [] m e]; simpl; try discriminate; reflexivity. Qed.

(** X13: the button and the handler do not test the price alike. When the
    submit button is enabled, [loading] is false, the button reads
    ["Buy Ticket"] and the price line is shown with a number that is
    neither zero nor NaN; a click in that render passes the price check of
    the handler unless that number is negative. During a submission that
    passed its checks the button is disabled, carries the class
    [loading] and reads ["Booking..."]. *)
Theorem X13_enabled_button_and_price_check :
  (forall (openModal : bool) s,
     button_disabled (view openModal s) = false ->
     loading s = false
     /\ button_label (view openModal s) = "Buy Ticket"%string
     /\ button_className (view openModal s) = "btn btn-primary "%string
     /\ exists x,
          price_line (view openModal s) = Some x
          /\ JS.truthy_number x = true
          /\ forall c, cl_state c = s ->
               holds c PricePositive = negb (JS.ltb x (JS.of_Z 0)))
  /\ (forall (openModal : bool) (evs : list Event) (done : list action),
        in_submission evs done ->
        button_disabled (view openModal (apply_trace initial_state done))
        = true
        /\ button_label (view openModal (apply_trace initial_state done))
           = "Booking..."%string
        /\ button_className (view openModal (apply_trace initial_state done))
           = "btn btn-primary loading"%string).
Proof.
  split.
  - intros openModal s H. cbn [view button_disabled] in H.
    unfold submit_disabled in H. apply orb_false_elim in H.
    destruct H as [Hl Hp]. apply negb_false_iff in Hp.
    cbn [view button_label button_className price_line]. rewrite Hl.
    split; [reflexivity |]. split; [reflexivity |]. split; [reflexivity |].
    destruct (ticketPrice s) as [x |] eqn:Hx; [| discriminate].
    exists x. split; [reflexivity |]. split; [exact Hp |].
    intros c <-. cbn [holds]. rewrite Hx. apply truthy_not_positive, Hp.
  - intros openModal evs done H.
    apply loading_in_submission in H.
    cbn [view button_disabled button_label button_className].
    unfold submit_disabled. rewrite H. repeat split.
Qed.

End Shown.

(** ** Amounts that are paid exactly

    Rounding, multiplication and division of binary64 numbers on values
    that need no rounding. *)

Section ExactAmounts.

Local Open Scope Z_scope.

Lemma digits2_size (p : positive) : digits2_pos p = Pos.size p.
Proof. induction p; simpl; congruence. Qed.

Lemma Zdigits2_log2 (z : Z) : 0 < z -> Zdigits2 z = Z.log2 z + 1.
Proof.
  destruct z as [| p | p]; try lia. intros _. simpl.
  rewrite digits2_size. destruct p; simpl; lia.
Qed.

Lemma iter_pos_nat {A} (f : A -> A) (p : positive) (x : A) :
  iter_pos f p x = Nat.iter (Pos.to_nat p) f x.
Proof.
  revert x. induction p as [p IH | p IH |]; intros x; cbn [iter_pos].
  - rewrite !IH, Pos2Nat.inj_xI.
    replace (S (2 * Pos.to_nat p))%nat
      with (Pos.to_nat p + S (Pos.to_nat p))%nat by lia.
    rewrite Nat.iter_add, Nat.iter_succ_r. reflexivity.
  - rewrite !IH, Pos2Nat.inj_xO.
    replace (2 * Pos.to_nat p)%nat with (Pos.to_nat p + Pos.to_nat p)%nat
      by lia.
    rewrite Nat.iter_add. reflexivity.
  - reflexivity.
Qed.

Lemma shr_1_even (z : Z) :
  shr_1 {| shr_m := 2 * z; shr_r := false; shr_s := false |}
  = {| shr_m := z; shr_r := false; shr_s := false |}.
Proof. destruct z; reflexivity. Qed.

Lemma iter_shr_1 (j : nat) (m : Z) :
  Nat.iter j shr_1 {| shr_m := m * 2 ^ Z.of_nat j; shr_r := false; shr_s := false |}
  = {| shr_m := m; shr_r := false; shr_s := false |}.
Proof.
  revert m. induction j as [| j IH]; intros m.
  - simpl. rewrite Z.mul_1_r. reflexivity.
  - rewrite Nat.iter_succ_r.
    replace (m * 2 ^ Z.of_nat (S j)) with (2 * (m * 2 ^ Z.of_nat j))
      by (rewrite Nat2Z.inj_succ, Z.pow_succ_r by lia; ring).
    rewrite shr_1_even. apply IH.
Qed.

Lemma shr_exact (m e k : Z) :
  0 <= k ->
  shr {| shr_m := m * 2 ^ k; shr_r := false; shr_s := false |} e k
  = ({| shr_m := m; shr_r := false; shr_s := false |}, e + k).
Proof.
  intros Hk. destruct k as [| p | p]; [| | lia].
  - simpl. rewrite Z.mul_1_r, Z.add_0_r. reflexivity.
  - unfold shr. rewrite iter_pos_nat.
    rewrite <- (positive_nat_Z p) at 1. rewrite iter_shr_1. reflexivity.
Qed.

Lemma shr_fexp_exact (m ex k : Z) :
  0 < m -> Z.log2 m = 52 -> 0 <= k -> 3 - JS.emax - JS.prec <= ex + k ->
  shr_fexp JS.prec JS.emax (m * 2 ^ k) ex loc_Exact
  = ({| shr_m := m; shr_r := false; shr_s := false |}, ex + k).
Proof.
  intros Hm Hlog Hk Hmin. unfold shr_fexp.
  rewrite Zdigits2_log2 by (apply Z.mul_pos_pos; [lia | apply Z.pow_pos_nonneg; lia]).
  rewrite Z.log2_mul_pow2 by lia. rewrite Hlog.
  unfold fexp, emin.
  replace (Z.max (k + 52 + 1 + ex - JS.prec) (3 - JS.emax - JS.prec) - ex) with k
    by (unfold JS.prec, JS.emax in *; lia).
  apply shr_exact, Hk.
Qed.

Lemma round_exact (m ex k : Z) :
  0 < m -> Z.log2 m = 52 -> 0 <= k ->
  3 - JS.emax - JS.prec <= ex + k <= JS.emax - JS.prec ->
  binary_round_aux JS.prec JS.emax false (m * 2 ^ k) ex loc_Exact
  = S754_finite false (Z.to_pos m) (ex + k).
Proof.
  intros Hm Hlog Hk Hrange. unfold binary_round_aux.
  rewrite (shr_fexp_exact m ex k) by lia.
  cbn [shr_m loc_of_shr_record round_nearest_even].
  pose proof (shr_fexp_exact m (ex + k) 0 Hm Hlog) as H0.
  rewrite Z.pow_0_r, Z.mul_1_r, Z.add_0_r in H0. rewrite H0 by lia.
  cbn [shr_m]. destruct m as [| p | p]; try lia.
  replace (ex + k <=? JS.emax - JS.prec) with true by (symmetry; lia).
  reflexivity.
Qed.

Lemma log2_normalised (m : Z) :
  0 < m -> Z.log2 m <= 52 -> Z.log2 (m * 2 ^ (52 - Z.log2 m)) = 52.
Proof. intros Hm Hl. rewrite Z.log2_mul_pow2 by lia. lia. Qed.

Lemma normalised_pos (m : Z) :
  0 < m -> Z.log2 m <= 52 -> 0 < m * 2 ^ (52 - Z.log2 m).
Proof.
  intros Hm Hl. apply Z.mul_pos_pos; [exact Hm |].
  apply Z.pow_pos_nonneg; lia.
Qed.

Lemma dyadic_shift (a j e : Z) :
  0 < a -> 0 <= j -> Z.log2 (a * 2 ^ j) <= 52 ->
  dyadic (a * 2 ^ j) e = dyadic a (e + j).
Proof.
  intros Ha Hj Hl. unfold dyadic.
  rewrite Z.log2_mul_pow2 in * by lia.
  f_equal.
  - f_equal. rewrite <- Z.mul_assoc, <- Z.pow_add_r by lia.
    f_equal. f_equal. lia.
  - lia.
Qed.

Lemma iter_xO (q d : positive) :
  Zpos (Pos.iter xO q d) = Zpos q * 2 ^ Zpos d.
Proof.
  rewrite (Pos.iter_swap_gen _ _ Zpos xO (Z.mul 2)) by reflexivity.
  change (Pos.iter (Z.mul 2) (Zpos q) d) with (Z.shiftl (Zpos q) (Zpos d)).
  apply Z.shiftl_mul_pow2. lia.
Qed.

Lemma shl_align_exact (q : positive) (ex' : Z) :
  ex' <= 0 ->
  shl_align q 0 ex' = (Z.to_pos (Zpos q * 2 ^ (- ex')), ex').
Proof.
  intros H. unfold shl_align.
  destruct ex' as [| d | d]; [| lia |].
  - simpl. rewrite Pos.mul_1_r. reflexivity.
  - cbn [Z.sub Z.opp Z.add]. rewrite <- iter_xO. reflexivity.
Qed.

Lemma of_Z_dyadic (p : Z) : 0 < p -> Z.log2 p <= 52 -> JS.of_Z p = dyadic p 0.
Proof.
  intros Hp Hl. unfold JS.of_Z, binary_normalize.
  destruct p as [| q | q]; try lia.
  pose proof (Z.log2_nonneg (Zpos q)) as Hnn.
  unfold binary_round.
  change (Zpos (digits2_pos q)) with (Zdigits2 (Zpos q)).
  rewrite Zdigits2_log2 by lia.
  unfold fexp, emin.
  replace (Z.max (Z.log2 (Zpos q) + 1 + 0 - JS.prec) (3 - JS.emax - JS.prec))
    with (Z.log2 (Zpos q) - 52) by (unfold JS.prec, JS.emax; lia).
  rewrite shl_align_exact by lia.
  rewrite Z2Pos.id.
  2:{ apply Z.mul_pos_pos; [lia | apply Z.pow_pos_nonneg; lia]. }
  replace (- (Z.log2 (Zpos q) - 52)) with (52 - Z.log2 (Zpos q)) by lia.
  pose proof (round_exact (Zpos q * 2 ^ (52 - Z.log2 (Zpos q)))
                (Z.log2 (Zpos q) - 52) 0) as H.
  rewrite Z.pow_0_r, Z.mul_1_r, Z.add_0_r in H.
  rewrite H.
  - unfold dyadic. f_equal. lia.
  - apply normalised_pos; lia.
  - apply log2_normalised; lia.
  - lia.
  - pose proof (Z.log2_nonneg (Zpos q)). unfold JS.prec, JS.emax. lia.
Qed.

Lemma mul_dyadic (a ea b eb : Z) :
  0 < a -> 0 < b -> Z.log2 (a * b) <= 52 ->
  3 - JS.emax - JS.prec <= ea + eb - (52 - Z.log2 (a * b)) <= JS.emax - JS.prec ->
  SFmul JS.prec JS.emax (dyadic a ea) (dyadic b eb) = dyadic (a * b) (ea + eb).
Proof.
  intros Ha Hb Hl Hrange.
  pose proof (Z.log2_mul_below a b Ha Hb) as Hbelow.
  pose proof (Z.log2_nonneg a) as Hla. pose proof (Z.log2_nonneg b) as Hlb.
  unfold dyadic at 1 2. unfold SFmul. cbn [xorb].
  rewrite Pos2Z.inj_mul, !Z2Pos.id by (apply normalised_pos; lia).
  pose proof (round_exact ((a * b) * 2 ^ (52 - Z.log2 (a * b)))
                (ea - (52 - Z.log2 a) + (eb - (52 - Z.log2 b)))
                (52 - Z.log2 a - Z.log2 b + Z.log2 (a * b))) as H.
  replace (a * 2 ^ (52 - Z.log2 a) * (b * 2 ^ (52 - Z.log2 b)))
    with (a * b * 2 ^ (52 - Z.log2 (a * b))
          * 2 ^ (52 - Z.log2 a - Z.log2 b + Z.log2 (a * b))).
  2:{ rewrite <- Z.mul_assoc, <- Z.pow_add_r by lia.
      replace (52 - Z.log2 (a * b) + (52 - Z.log2 a - Z.log2 b + Z.log2 (a * b)))
        with ((52 - Z.log2 a) + (52 - Z.log2 b)) by lia.
      rewrite Z.pow_add_r by lia. ring. }
  rewrite H.
  - unfold dyadic. f_equal. lia.
  - apply normalised_pos; lia.
  - apply log2_normalised; lia.
  - lia.
  - lia.
Qed.

Lemma div_eucl_exact (q m : Z) : 0 < m -> Z.div_eucl (m * q) m = (q, 0).
Proof.
  intros Hm.
  pose proof (Z.div_mul q m ltac:(lia)) as Hd.
  pose proof (Z.mod_mul q m ltac:(lia)) as Hr.
  unfold Z.div, Z.modulo in Hd, Hr. rewrite (Z.mul_comm m q).
  destruct (Z.div_eucl (q * m) m) as [d r]. congruence.
Qed.

Lemma new_location_zero (m : Z) : new_location m 0 = loc_Exact.
Proof. unfold new_location. destruct (Z.even m); reflexivity. Qed.

Lemma div_core_exact (m1 e1 m2 e2 q : Z) :
  0 < m1 -> 0 < m2 -> Z.log2 m1 = 52 -> Z.log2 m2 = 52 ->
  m1 * 2 ^ 53 = m2 * q ->
  3 - JS.emax - JS.prec <= e1 - e2 - 53 ->
  SFdiv_core_binary JS.prec JS.emax m1 e1 m2 e2 = (q, e1 - e2 - 53, loc_Exact).
Proof.
  intros H1 H2 Hl1 Hl2 Hq Hmin. unfold SFdiv_core_binary.
  rewrite !Zdigits2_log2, Hl1, Hl2 by lia.
  unfold fexp, emin.
  replace (Z.min (Z.max (52 + 1 + e1 - (52 + 1 + e2) - JS.prec) (3 - JS.emax - JS.prec))
             (e1 - e2))
    with (e1 - e2 - 53) by (unfold JS.prec, JS.emax in *; lia).
  replace (e1 - e2 - (e1 - e2 - 53)) with 53 by lia.
  rewrite Z.shiftl_mul_pow2 by lia.
  rewrite Hq, div_eucl_exact, new_location_zero by lia.
  reflexivity.
Qed.

Lemma div_dyadic (a ea b eb c : Z) :
  0 < b -> 0 < c -> a = b * c -> Z.log2 a <= 52 ->
  3 - JS.emax - JS.prec <= ea - eb - 53 - 52 ->
  ea - eb - (52 - Z.log2 c) <= JS.emax - JS.prec ->
  SFdiv JS.prec JS.emax (dyadic a ea) (dyadic b eb) = dyadic c (ea - eb).
Proof.
  intros Hb Hc Ha Hl Hmin Hmax.
  assert (Hapos : 0 < a) by (subst a; apply Z.mul_pos_pos; lia).
  pose proof (Z.log2_mul_below b c Hb Hc) as Hbelow.
  pose proof (Z.log2_mul_above b c ltac:(lia) ltac:(lia)) as Habove.
  rewrite <- Ha in Hbelow, Habove.
  pose proof (Z.log2_nonneg b) as Hlb. pose proof (Z.log2_nonneg c) as Hlc.
  unfold dyadic at 1 2. unfold SFdiv. cbn [xorb].
  rewrite !Z2Pos.id by (apply normalised_pos; lia).
  rewrite (div_core_exact _ _ _ _
             (c * 2 ^ (52 - Z.log2 c) * 2 ^ (1 - Z.log2 a + Z.log2 b + Z.log2 c))).
  - pose proof (round_exact (c * 2 ^ (52 - Z.log2 c))
                  (ea - (52 - Z.log2 a) - (eb - (52 - Z.log2 b)) - 53)
                  (1 - Z.log2 a + Z.log2 b + Z.log2 c)) as H.
    rewrite H.
    + unfold dyadic. f_equal. lia.
    + apply normalised_pos; lia.
    + apply log2_normalised; lia.
    + lia.
    + unfold JS.prec, JS.emax in *. lia.
  - apply normalised_pos; lia.
  - apply normalised_pos; lia.
  - apply log2_normalised; lia.
  - apply log2_normalised; lia.
  - subst a.
    replace (b * 2 ^ (52 - Z.log2 b)
             * (c * 2 ^ (52 - Z.log2 c)
                * 2 ^ (1 - Z.log2 (b * c) + Z.log2 b + Z.log2 c)))
      with (b * c * (2 ^ (52 - Z.log2 b)
                     * (2 ^ (52 - Z.log2 c)
                        * 2 ^ (1 - Z.log2 (b * c) + Z.log2 b + Z.log2 c))))
      by ring.
    rewrite <- !Z.pow_add_r by lia.
    rewrite <- !Z.mul_assoc, <- Z.pow_add_r by lia.
    do 3 f_equal. lia.
  - unfold JS.prec, JS.emax in *. lia.
Qed.


(** Dividing a multiple of 15625 below 2^53 by [1_000_000] and
    multiplying the quotient by [1_000_000] gives the multiple back. *)
Lemma exact_round_trip (n : Z) :
  0 < n -> 15625 * n < 2 ^ 53 ->
  JS.mul (JS.div (JS.of_Z (15625 * n)) JS.million) JS.million
  = JS.of_Z (15625 * n).
Proof.
  intros Hn Hb. unfold JS.mul, JS.div, JS.million.
  assert (Hlp : Z.log2 (15625 * n) <= 52).
  { apply Z.lt_succ_r. apply Z.log2_lt_pow2; lia. }
  assert (Hln : Z.log2 n <= 52).
  { pose proof (Z.log2_le_mono n (15625 * n) ltac:(lia)). lia. }
  pose proof (Z.log2_nonneg n) as Hn0.
  assert (Hl15 : Z.log2 15625 = 13) by reflexivity.
  assert (Hmillion : JS.of_Z 1000000 = dyadic 15625 6).
  { rewrite of_Z_dyadic by (try reflexivity; lia || (simpl; lia)).
    change 1000000 with (15625 * 2 ^ 6).
    rewrite dyadic_shift; [reflexivity | lia | lia |].
    change (15625 * 2 ^ 6) with 1000000. simpl. lia. }
  rewrite Hmillion, (of_Z_dyadic (15625 * n)) by lia.
  rewrite (div_dyadic (15625 * n) 0 15625 6 n); try lia.
  - rewrite (Z.mul_comm 15625 n).
    rewrite (mul_dyadic n (0 - 6) 15625 6); try lia.
    + reflexivity.
    + rewrite (Z.mul_comm n 15625). exact Hlp.
    + rewrite (Z.mul_comm n 15625).
      pose proof (Z.log2_nonneg (15625 * n)). unfold JS.prec, JS.emax. lia.
  - unfold JS.prec, JS.emax. lia.
  - unfold JS.prec, JS.emax. lia.
Qed.

(** A multiple of 15625 micro-units, scaled down, is positive. *)
Lemma scaled_price_positive (n : Z) :
  0 < n -> 15625 * n < 2 ^ 53 ->
  JS.ltb (JS.of_Z 0) (JS.div (JS.of_Z (15625 * n)) JS.million) = true.
Proof.
  intros Hn Hb. unfold JS.div, JS.million.
  assert (Hlp : Z.log2 (15625 * n) <= 52).
  { apply Z.lt_succ_r. apply Z.log2_lt_pow2; lia. }
  assert (Hmillion : JS.of_Z 1000000 = dyadic 15625 6).
  { rewrite of_Z_dyadic by (try reflexivity; lia || (simpl; lia)).
    change 1000000 with (15625 * 2 ^ 6).
    rewrite dyadic_shift; [reflexivity | lia | lia |].
    change (15625 * 2 ^ 6) with 1000000. simpl. lia. }
  pose proof (Z.log2_nonneg n) as Hn0.
  assert (Hln : Z.log2 n <= 52).
  { pose proof (Z.log2_le_mono n (15625 * n) ltac:(lia)). lia. }
  rewrite Hmillion, (of_Z_dyadic (15625 * n)) by lia.
  rewrite (div_dyadic (15625 * n) 0 15625 6 n); try lia.
  - reflexivity.
  - unfold JS.prec, JS.emax. lia.
  - unfold JS.prec, JS.emax. lia.
Qed.

Context {sdk : Sdk}.

Implicit Types (c : Closure) (w : World).

(** X14: prices that are multiples of 1/64 ALGO are paid exactly. When
    [ticketPrice] is what a price fetch set for a fetched price of
    [15625 * n] micro-units, below 2^53, the price check of the handler
    passes and the amount of every payment object the submission builds
    is the fetched price: dividing by [1_000_000] and multiplying back
    loses nothing. *)
Theorem X14_multiples_of_15625_are_paid_exactly c w (n : Z) :
  0 < n ->
  15625 * n < 2 ^ 53 ->
  ticketPrice (cl_state c)
  = Some (JS.div (JS.of_Z (15625 * n)) JS.million) ->
  holds c PricePositive = true
  /\ forall pay,
       In (MakePaymentTxn pay) (trace (handleBuyTicket c w)) ->
       amount pay = JS.of_Z (15625 * n).
Proof.
  intros Hn Hb Hprice. split.
  - cbn [holds]. rewrite Hprice. apply scaled_price_positive; assumption.
  - intros pay Hin.
    destruct (payment_fields c w pay Hin) as (_ & _ & price & Hp & ->).
    rewrite Hprice in Hp. injection Hp as <-.
    apply exact_round_trip; assumption.
Qed.

End ExactAmounts.

(** ** Runs on the concrete platform *)

#[local] Existing Instance Demo.sdk.

Example submission_that_goes_through :
  handleBuyTicket (Demo.ready "42") Demo.accepting
  = ([SetLoading true;
      GetClient {| fac_id := 1; fac_algodClient := 0; fac_address := "BUYER";
                   fac_signer := 7; fac_isDevelopment := false |} 1001;
      GetTransactionParams 0;
      MakePaymentTxn {| sender := "BUYER"; receiver := DEFAULT_RECEIVER;
                        amount := JS.of_Z 2500000; suggestedParams := tt |};
      BookTicket 1 (JS.of_Z 42) "txn"%string;
      EnqueueSnackbar "Ticket booked successfully! Ticket ID: 17" v_success;
      CloseModal;
      SetEventId "";
      SetReceiverAddress DEFAULT_RECEIVER;
      SetTicketPrice None;
      DispatchEvent "refreshTickets";
      SetLoading false],
     Returns tt).
Proof. vm_compute. reflexivity. Qed.

Example submission_that_is_rejected :
  handleBuyTicket (Demo.ready "42")
    (Demo.rejecting (JS.ErrorInstance "insufficient funds"))
  = ([SetLoading true;
      GetClient {| fac_id := 1; fac_algodClient := 0; fac_address := "BUYER";
                   fac_signer := 7; fac_isDevelopment := false |} 1001;
      GetTransactionParams 0;
      MakePaymentTxn {| sender := "BUYER"; receiver := DEFAULT_RECEIVER;
                        amount := JS.of_Z 2500000; suggestedParams := tt |};
      BookTicket 1 (JS.of_Z 42) "txn"%string;
      ConsoleError "Error booking ticket:"
        (JS.ErrorInstance "insufficient funds");
      EnqueueSnackbar "Error booking ticket: insufficient funds" v_error;
      SetLoading false],
     Returns tt).
Proof. vm_compute. reflexivity. Qed.

Example submission_without_wallet :
  handleBuyTicket (Demo.mounted (Demo.filled "42" (Some Demo.price))
                     Demo.no_wallet) Demo.accepting
  = ([EnqueueSnackbar "Please connect your wallet first" v_warning],
     Returns tt).
Proof. vm_compute. reflexivity. Qed.

Example fetch_that_fails :
  fetchTicketPrice (Demo.mounted (Demo.filled "7" None) Demo.wallet)
    (Demo.unreadable (JS.NonError None))
  = ([GetClient {| fac_id := 1; fac_algodClient := 0; fac_address := "BUYER";
                   fac_signer := 7; fac_isDevelopment := false |} 1001;
      GetTicketPrice 1;
      ConsoleError "Error fetching ticket price:" (JS.NonError None);
      SetTicketPrice None;
      EnqueueSnackbar "Unable to fetch ticket price" v_error],
     Returns tt).
Proof. vm_compute. reflexivity. Qed.

(** A render with nothing changed does not run the effect again; one
    with a new identifier does. *)
Example effect_is_skipped_when_nothing_changed :
  snd (render
         (Some (fst (render None
                       (Demo.inputs (Demo.filled "42" None) Demo.wallet 0))))
         (Demo.inputs (Demo.filled "42" (Some Demo.price)) Demo.wallet 0))
  = false.
Proof. vm_compute. reflexivity. Qed.

Example effect_runs_for_new_identifier :
  snd (render
         (Some (fst (render None
                       (Demo.inputs (Demo.filled "42" None) Demo.wallet 0))))
         (Demo.inputs (Demo.filled "43" None) Demo.wallet 0))
  = true.
Proof. vm_compute. reflexivity. Qed.

(** C5, at a price of 2.01 ALGO: the price fetch resolves to 2010000
    micro-units and sets [ticketPrice] to [2010000 / 1_000_000]; the
    submission that follows builds a payment object whose sender is the
    wallet address and whose receiver is the entered address, but whose
    amount [ticketPrice * 1_000_000] is 8632884264959999 * 2^-32
    (2009999.9999999998), below the fetched 2010000 and not a whole number
    of micro-units. *)
Theorem C5_amount_differs_from_fetched_price :
  ticketPrice
    (apply_trace (Demo.filled "42" None)
       (trace (fetchTicketPrice
                 (Demo.mounted (Demo.filled "42" None) Demo.wallet)
                 (Demo.world (Returns (JS.of_Z 2010000)) (Returns "17"%string)))))
  = Some (JS.div (JS.of_Z 2010000) JS.million)
  /\ filter is_MakePaymentTxn
       (trace (handleBuyTicket
                 (Demo.mounted
                    (Demo.filled "42"
                       (Some (JS.div (JS.of_Z 2010000) JS.million)))
                    Demo.wallet)
                 (Demo.world (Returns (JS.of_Z 2010000)) (Returns "17"%string))))
     = [MakePaymentTxn
          {| sender := "BUYER";
             receiver := DEFAULT_RECEIVER;
             amount := S754_finite false 8632884264959999 (-32);
             suggestedParams := tt |}]
  /\ JS.of_Z 2010000 = S754_finite false 8632884264960000 (-32)
  /\ S754_finite false 8632884264959999 (-32) <> JS.of_Z 2010000
  /\ JS.ltb (S754_finite false 8632884264959999 (-32)) (JS.of_Z 2010000)
     = true.
Proof.
  split; [vm_compute; reflexivity |].
  split; [vm_compute; reflexivity |].
  split; [vm_compute; reflexivity |].
  split; [vm_compute; discriminate |].
  vm_compute; reflexivity.
Qed.

(** C1 at a dialog with everything but a price. *)
Lemma C1_witness :
  first_failing (Demo.mounted (Demo.filled "42" None) Demo.wallet)
  = Some PricePositive
  /\ handleBuyTicket (Demo.mounted (Demo.filled "42" None) Demo.wallet)
       Demo.accepting
     = ([EnqueueSnackbar "Ticket price not available" v_error], Returns tt).
Proof.
  split; [reflexivity |].
  apply (C1_first_failing_precondition_rejects
           (Demo.mounted (Demo.filled "42" None) Demo.wallet)
           Demo.accepting PricePositive).
  reflexivity.
Defined.

(** C2 at a booking that goes through. *)
Lemma C2_witness :
  In (BookTicket 1 (JS.Number "42") "txn"%string)
     (trace (handleBuyTicket (Demo.ready "42") Demo.accepting))
  /\ bookTicket Demo.accepting 1 (JS.Number "42") "txn"%string
     = Returns "17"%string
  /\ eventId
       (apply_trace (Demo.filled "42" (Some Demo.price))
          (trace (handleBuyTicket (Demo.ready "42") Demo.accepting)))
     = ""%string.
Proof.
  assert (Hin : In (BookTicket 1 (JS.Number "42") "txn"%string)
                   (trace (handleBuyTicket (Demo.ready "42") Demo.accepting)))
    by (vm_compute; do 4 right; left; reflexivity).
  split; [exact Hin |]. split; [reflexivity |].
  apply (C2_successful_booking_resets_closes_refreshes
           (Demo.ready "42") Demo.accepting
           (Demo.filled "42" (Some Demo.price))
           1 (JS.Number "42") "txn"%string "17"%string Hin).
  reflexivity.
Defined.

(** The claim C3 as stated fails when what is thrown is not an [Error]:
    the booking call rejects with a plain object whose message is
    ["boom"], and the one notification shown reads
    ["Error booking ticket: Unknown error"]. *)
Lemma C3_counterexample :
  filter is_BookTicket
    (trace (handleBuyTicket (Demo.ready "42")
              (Demo.rejecting (JS.NonError (Some "boom"%string)))))
  = [BookTicket 1 (JS.Number "42") "txn"%string]
  /\ bookTicket (Demo.rejecting (JS.NonError (Some "boom"%string)))
       1 (JS.Number "42") "txn"%string
     = Throws (JS.NonError (Some "boom"%string))
  /\ JS.message_of (JS.NonError (Some "boom"%string)) = Some "boom"%string
  /\ filter is_notification
       (trace (handleBuyTicket (Demo.ready "42")
                 (Demo.rejecting (JS.NonError (Some "boom"%string)))))
     = [EnqueueSnackbar "Error booking ticket: Unknown error" v_error]
  /\ includes "boom" "Error booking ticket: Unknown error" = false.
Proof. repeat split; vm_compute; reflexivity. Qed.

(** C3 at a booking rejected with [new Error("insufficient funds")]. *)
Lemma C3_witness :
  In (BookTicket 1 (JS.Number "42") "txn"%string)
     (trace (handleBuyTicket (Demo.ready "42")
               (Demo.rejecting (JS.ErrorInstance "insufficient funds"))))
  /\ bookTicket (Demo.rejecting (JS.ErrorInstance "insufficient funds"))
       1 (JS.Number "42") "txn"%string
     = Throws (JS.ErrorInstance "insufficient funds")
  /\ eventId
       (apply_trace (Demo.filled "42" (Some Demo.price))
          (trace (handleBuyTicket (Demo.ready "42")
                    (Demo.rejecting (JS.ErrorInstance "insufficient funds")))))
     = "42"%string.
Proof.
  assert (Hin : In (BookTicket 1 (JS.Number "42") "txn"%string)
                   (trace (handleBuyTicket (Demo.ready "42")
                             (Demo.rejecting
                                (JS.ErrorInstance "insufficient funds")))))
    by (vm_compute; do 4 right; left; reflexivity).
  split; [exact Hin |]. split; [reflexivity |].
  apply (C3_failed_booking_keeps_input_and_notifies
           (Demo.ready "42")
           (Demo.rejecting (JS.ErrorInstance "insufficient funds"))
           (Demo.filled "42" (Some Demo.price))
           1 (JS.Number "42") "txn"%string
           (JS.ErrorInstance "insufficient funds") Hin).
  reflexivity.
Defined.

(** C4 at a fetch that resolves to 2500000 micro-units. *)
Lemma C4_witness :
  In (GetTicketPrice 1)
     (trace (fetchTicketPrice (Demo.mounted (Demo.filled "42" None) Demo.wallet)
               Demo.accepting))
  /\ getTicketPrice Demo.accepting 1 = Returns (JS.of_Z 2500000)
  /\ ticketPrice
       (apply_trace (Demo.filled "42" None)
          (trace (fetchTicketPrice
                    (Demo.mounted (Demo.filled "42" None) Demo.wallet)
                    Demo.accepting)))
     = Some (JS.div (JS.of_Z 2500000) JS.million).
Proof.
  assert (Hin : In (GetTicketPrice 1)
                   (trace (fetchTicketPrice
                             (Demo.mounted (Demo.filled "42" None) Demo.wallet)
                             Demo.accepting)))
    by (vm_compute; right; left; reflexivity).
  split; [exact Hin |]. split; [reflexivity |].
  apply (C4_fetched_price_is_scaled_down
           (Demo.mounted (Demo.filled "42" None) Demo.wallet) Demo.accepting
           (Demo.filled "42" None) 1 (JS.of_Z 2500000) Hin).
  reflexivity.
Defined.

(** The claim C6 as stated fails in the price-fetch effect: with no
    identifier typed, the effect resets the price and shows nothing. *)
Lemma C6_counterexample :
  can_fetch (Demo.mounted (Demo.filled "" (Some Demo.price)) Demo.wallet)
  = false
  /\ fetchTicketPrice
       (Demo.mounted (Demo.filled "" (Some Demo.price)) Demo.wallet)
       Demo.accepting
     = ([SetTicketPrice None], Returns tt)
  /\ count is_notification
       (trace (fetchTicketPrice
                 (Demo.mounted (Demo.filled "" (Some Demo.price)) Demo.wallet)
                 Demo.accepting))
     = 0.
Proof. repeat split; vm_compute; reflexivity. Qed.

(** The claim C7 as stated fails on the second of two renders with the
    same [eventId] and the same wallet, in which only the object returned
    by [getAlgodConfigFromViteEnvironment()] is a new one: the effect runs
    again. *)
Lemma C7_counterexample :
  eventId (in_state (Demo.inputs (Demo.filled "42" None) Demo.wallet 1))
  = eventId (in_state (Demo.inputs (Demo.filled "42" None) Demo.wallet 0))
  /\ in_wallet (Demo.inputs (Demo.filled "42" None) Demo.wallet 1)
     = in_wallet (Demo.inputs (Demo.filled "42" None) Demo.wallet 0)
  /\ snd (render
            (Some (fst (render None
                          (Demo.inputs (Demo.filled "42" None) Demo.wallet 0))))
            (Demo.inputs (Demo.filled "42" None) Demo.wallet 1))
     = true.
Proof. repeat split; vm_compute; reflexivity. Qed.

(** C7 at a fetch whose remote read fails. *)
Lemma C7_witness :
  In (GetTicketPrice 1)
     (trace (fetchTicketPrice (Demo.mounted (Demo.filled "7" None) Demo.wallet)
               (Demo.unreadable (JS.ErrorInstance "no such event"))))
  /\ getTicketPrice (Demo.unreadable (JS.ErrorInstance "no such event")) 1
     = Throws (JS.ErrorInstance "no such event")
  /\ ticketPrice
       (apply_trace (Demo.filled "7" (Some Demo.price))
          (trace (fetchTicketPrice
                    (Demo.mounted (Demo.filled "7" None) Demo.wallet)
                    (Demo.unreadable (JS.ErrorInstance "no such event")))))
     = None.
Proof.
  assert (Hin : In (GetTicketPrice 1)
                   (trace (fetchTicketPrice
                             (Demo.mounted (Demo.filled "7" None) Demo.wallet)
                             (Demo.unreadable
                                (JS.ErrorInstance "no such event")))))
    by (vm_compute; right; left; reflexivity).
  split; [exact Hin |]. split; [reflexivity |].
  apply (C7_failed_fetch_clears_price_without_retry
           (Demo.mounted (Demo.filled "7" None) Demo.wallet)
           (Demo.unreadable (JS.ErrorInstance "no such event"))
           (Demo.filled "7" (Some Demo.price)) 1
           (JS.ErrorInstance "no such event") Hin).
  reflexivity.
Defined.

(** The claim C8 as stated fails on the button: after a price fetch that
    resolved to NaN the flag is down and the price is neither null nor
    zero, and the button is disabled. *)
Lemma C8_counterexample :
  submit_disabled Demo.nan_priced = true
  /\ loading Demo.nan_priced = false
  /\ ticketPrice Demo.nan_priced = Some JS.NaN
  /\ Some JS.NaN <> @None JS.number
  /\ Some JS.NaN <> Some (S754_zero false)
  /\ Some JS.NaN <> Some (S754_zero true).
Proof.
  split; [vm_compute; reflexivity |].
  split; [vm_compute; reflexivity |].
  split; [vm_compute; reflexivity |].
  repeat split; discriminate.
Qed.

(** C9 at the first render with a connected wallet. *)
Lemma C9_witness :
  rendered (fst (render None (Demo.inputs (Demo.filled "42" None) Demo.wallet 0)))
    (Demo.inputs (Demo.filled "42" None) Demo.wallet 0)
  /\ exists factory,
       cl_appFactory (Demo.mounted (Demo.filled "42" None) Demo.wallet)
       = Some factory.
Proof.
  split; [apply rendered_mount |].
  destruct (C9_wallet_check_rules_out_missing_factory
              (fst (render None
                      (Demo.inputs (Demo.filled "42" None) Demo.wallet 0)))
              (Demo.inputs (Demo.filled "42" None) Demo.wallet 0)
              Demo.accepting
              (rendered_mount
                 (Demo.inputs (Demo.filled "42" None) Demo.wallet 0)))
    as [_ H].
  destruct (H eq_refl) as (factory & Hfac & _).
  exists factory. exact Hfac.
Defined.

(** C10 at the identifiers ["42"] and ["abc"]: the first is booked as
    42, the second as NaN. *)
Lemma C10_witness :
  In (BookTicket 1 (JS.of_Z 42) "txn"%string)
     (trace (handleBuyTicket (Demo.ready "42") Demo.accepting))
  /\ JS.is_numeral "abc" = false
  /\ In (BookTicket 1 JS.NaN "txn"%string)
       (trace (handleBuyTicket (Demo.ready "abc") Demo.accepting)).
Proof.
  split; [| split; [reflexivity |]].
  - destruct (C10_booking_call_receives_Number_of_eventId
                (Demo.ready "42") Demo.accepting) as (_ & _ & Hbook & _).
    destruct (Hbook
                {| fac_id := 1; fac_algodClient := 0; fac_address := "BUYER";
                   fac_signer := 7; fac_isDevelopment := false |}
                1 tt "txn"%string)
      as (_ & _ & Hin & _); try reflexivity; [discriminate |].
    exact Hin.
  - destruct (C10_booking_call_receives_Number_of_eventId
                (Demo.ready "abc") Demo.accepting) as (_ & _ & Hbook & _).
    destruct (Hbook
                {| fac_id := 1; fac_algodClient := 0; fac_address := "BUYER";
                   fac_signer := 7; fac_isDevelopment := false |}
                1 tt "txn"%string)
      as (_ & _ & _ & Hnan); try reflexivity; [discriminate |].
    apply Hnan. reflexivity.
Defined.

(** ** The further properties, on the concrete platform *)

(** X3 with the node out of reach. *)
Lemma X3_witness :
  first_failing (Demo.ready "42") = None
  /\ count is_BookTicket
       (trace (handleBuyTicket (Demo.ready "42") Scenario.offline)) = 0
  /\ filter is_setter
       (trace (handleBuyTicket (Demo.ready "42") Scenario.offline))
     = [SetLoading true; SetLoading false].
Proof.
  split; [reflexivity |]. split; [reflexivity |].
  destruct (X3_failure_before_the_booking_call
              (Demo.ready "42") Scenario.offline eq_refl eq_refl)
    as (e & _ & _ & H & _).
  exact H.
Defined.

(** X4 at a booking that goes through. *)
Lemma X4_witness :
  In (BookTicket 1 (JS.Number "42") "txn"%string)
     (trace (handleBuyTicket (Demo.ready "42") Demo.accepting))
  /\ JS.Number "42" = JS.Number (eventId (cl_state (Demo.ready "42"))).
Proof.
  assert (Hin : In (BookTicket 1 (JS.Number "42") "txn"%string)
                   (trace (handleBuyTicket (Demo.ready "42") Demo.accepting)))
    by (vm_compute; do 4 right; left; reflexivity).
  split; [exact Hin |].
  exact (proj1 (X4_booking_call_provenance
                  (Demo.ready "42") Demo.accepting
                  1 (JS.Number "42") "txn"%string Hin)).
Defined.

(** X6 at the identifiers ["42"] and ["43"]. *)
Lemma X6_witness :
  fetchTicketPrice (Demo.mounted (Demo.filled "42" None) Demo.wallet)
    Demo.accepting
  = fetchTicketPrice (Demo.mounted (Demo.filled "43" None) Demo.wallet)
      Demo.accepting.
Proof.
  apply (X6_fetch_ignores_which_identifier
           (Demo.mounted (Demo.filled "42" None) Demo.wallet)
           (Demo.mounted (Demo.filled "43" None) Demo.wallet)
           Demo.accepting);
    [reflexivity | reflexivity | discriminate | discriminate].
Defined.

(** X7 after the user switched to another account. *)
Lemma X7_witness :
  rendered Scenario.switched_hooks Scenario.switched_inputs
  /\ cl_appFactory (closure_of Scenario.switched_hooks Scenario.switched_inputs)
     = Some {| fac_id := 4; fac_algodClient := 0; fac_address := "SELLER";
               fac_signer := 8; fac_isDevelopment := false |}
  /\ activeAddress (in_wallet Scenario.switched_inputs) = Some "SELLER"%string.
Proof.
  assert (Hr : rendered Scenario.switched_hooks Scenario.switched_inputs)
    by (apply (rendered_update Scenario.first_hooks Scenario.first_inputs),
          rendered_mount).
  split; [exact Hr |]. split; [reflexivity |].
  exact (proj1 (X7_factory_is_built_for_the_current_wallet
                  Scenario.switched_hooks Scenario.switched_inputs
                  {| fac_id := 4; fac_algodClient := 0;
                     fac_address := "SELLER"; fac_signer := 8;
                     fac_isDevelopment := false |}
                  Hr eq_refl)).
Defined.

(** X8 at a second render with nothing changed. *)
Lemma X8_witness :
  rendered Scenario.first_hooks Scenario.first_inputs
  /\ hk_appFactory (fst (render (Some Scenario.first_hooks)
                           Scenario.first_inputs))
     = hk_appFactory Scenario.first_hooks.
Proof.
  assert (Hr : rendered Scenario.first_hooks Scenario.first_inputs)
    by apply rendered_mount.
  split; [exact Hr |].
  destruct (X8_memoised_objects_across_renders
              Scenario.first_hooks Scenario.first_inputs Scenario.first_inputs
              Hr) as [Hkeep _].
  destruct (Hkeep eq_refl eq_refl eq_refl) as (_ & H & _).
  exact H.
Defined.

(** X9 after a fetch of 2500000 micro-units. *)
Lemma X9_witness :
  In (GetTicketPrice 1)
     (trace (fetchTicketPrice (Demo.mounted (Demo.filled "42" None) Demo.wallet)
               Demo.accepting))
  /\ JS.ltb (JS.of_Z 0) (JS.div (JS.of_Z 2500000) JS.million) = true
  /\ first_failing (Demo.mounted Scenario.fetched Demo.wallet) = None.
Proof.
  assert (Hin : In (GetTicketPrice 1)
                   (trace (fetchTicketPrice
                             (Demo.mounted (Demo.filled "42" None) Demo.wallet)
                             Demo.accepting)))
    by (vm_compute; right; left; reflexivity).
  split; [exact Hin |]. split; [reflexivity |].
  apply (X9_submission_after_a_successful_fetch
           (Demo.mounted (Demo.filled "42" None) Demo.wallet) Demo.accepting
           (Demo.filled "42" None) 1 (JS.of_Z 2500000)
           (Demo.mounted Scenario.fetched Demo.wallet) Hin);
    reflexivity.
Defined.

(** X10 after a booking that went through. *)
Lemma X10_witness :
  In (BookTicket 1 (JS.Number "42") "txn"%string)
     (trace (handleBuyTicket (Demo.ready "42") Demo.accepting))
  /\ handleBuyTicket
       (Demo.mounted
          (apply_trace (Demo.filled "42" (Some Demo.price))
             (trace (handleBuyTicket (Demo.ready "42") Demo.accepting)))
          Demo.wallet)
       Demo.accepting
     = ([EnqueueSnackbar "Please enter an Event ID" v_error], Returns tt).
Proof.
  assert (Hin : In (BookTicket 1 (JS.Number "42") "txn"%string)
                   (trace (handleBuyTicket (Demo.ready "42") Demo.accepting)))
    by (vm_compute; do 4 right; left; reflexivity).
  split; [exact Hin |].
  destruct (X10_click_after_a_successful_booking
              (Demo.ready "42") Demo.accepting
              (Demo.filled "42" (Some Demo.price))
              1 (JS.Number "42") "txn"%string "17"%string
              (Demo.mounted
                 (apply_trace (Demo.filled "42" (Some Demo.price))
                    (trace (handleBuyTicket (Demo.ready "42") Demo.accepting)))
                 Demo.wallet)
              Demo.accepting Hin eq_refl eq_refl) as (_ & _ & _ & H).
  apply H. reflexivity.
Defined.

(** X11 at the identifier ["42"]. *)
Lemma X11_witness :
  all_chars is_decimal_digit "42" = true
  /\ In (BookTicket 1 (JS.Number "42") "txn"%string)
       (trace (handleBuyTicket (Demo.ready "42") Demo.accepting))
  /\ JS.Number "42" = JS.of_Z (decimal_value "42").
Proof.
  assert (Hin : In (BookTicket 1 (JS.Number "42") "txn"%string)
                   (trace (handleBuyTicket (Demo.ready "42") Demo.accepting)))
    by (vm_compute; do 4 right; left; reflexivity).
  split; [reflexivity |]. split; [exact Hin |].
  apply (X11_digit_identifier_is_booked_as_its_value
           (Demo.ready "42") Demo.accepting 1 (JS.Number "42") "txn"%string);
    [discriminate | reflexivity | exact Hin].
Defined.

(** X12 at an identifier of one space. *)
Lemma X12_witness :
  all_chars JS.is_StrWhiteSpaceChar " " = true
  /\ In (BookTicket 1 (S754_zero false) "txn"%string)
       (trace (handleBuyTicket (Demo.ready " ") Demo.accepting))
  /\ holds (Demo.ready " ") EventIdPresent = true.
Proof.
  split; [reflexivity |].
  split; [vm_compute; do 4 right; left; reflexivity |].
  apply (X12_blank_identifier_is_booked_as_zero
           (Demo.ready " ") Demo.accepting 1 (S754_zero false) "txn"%string);
    [discriminate | reflexivity].
Defined.

(** X14 at 2.5 ALGO, 160 times 15625 micro-units. *)
Lemma X14_witness :
  ticketPrice (cl_state (Demo.ready "42"))
  = Some (JS.div (JS.of_Z (15625 * 160)) JS.million)
  /\ holds (Demo.ready "42") PricePositive = true.
Proof.
  split; [reflexivity |].
  apply (X14_multiples_of_15625_are_paid_exactly
           (Demo.ready "42") Demo.accepting 160);
    [reflexivity | reflexivity | reflexivity].
Defined.

